(** * The Singleton examples of [creational/singleton]

    A shallow embedding of [singleton.py] (the guard written inside the
    class's own [__new__]/[__init__]) and of [singleton_meta.py] (the guard
    written once in the metaclass [SingletonMeta]), over a small model of
    the Python object store: objects live in a heap and are named by their
    address, console output and attribute writes are logged in a trace, and
    an exception leaves the state it was raised in. *)

From Stdlib Require Import Ascii HexString.
From stdpp Require Import gmap strings list fin_maps pretty.

Set Default Proof Using "Type".

(** ** Python values, call arguments and exceptions *)

Module Py.

(** The identity of an object ([id(o)], what [is] compares): its address. *)
Abbreviation loc := nat (only parsing).

Inductive value :=
  | VNone
  | VBool (b : bool)
  | VInt (n : Z)
  | VStr (s : string)
  | VRef (o : loc).

(** [bool(v)], as [not self._initialized] evaluates it. *)
Definition truthy (v : value) : bool :=
  match v with
  | VNone => false
  | VBool b => b
  | VInt n => negb (n =? 0)%Z
  | VStr s => negb (String.eqb s "")
  | VRef _ => true
  end.

(** The actual arguments of a call, as the callee receives them in
    [*args] and [**kwargs]. A keyword named as the callee's first
    parameter ([cls]) is never among them: Python rejects such a call
    before the body runs. *)
Record call_args := CallArgs {
  positional : list value;
  keywords : list (string * value)
}.

Definition no_args : call_args := CallArgs [] [].

(** Binding of the actual arguments to the signature [(self)]. *)
Definition binds_to_self_only (a : call_args) : bool :=
  match positional a, keywords a with
  | [], [] => true
  | _, _ => false
  end.

Inductive exn :=
  | TypeError
  | AttributeError (name : string)
  | KeyError
  | ValueError
  | AssertionError (msg : string)
  | OtherError (msg : string).

(** What a method body does to [self] and to the console, in order, and
    the exception it ends with, if any. *)
Inductive effect :=
  | Print (line : string)
  | SetAttr (name : string) (v : value).

Record body := Body {
  effects : list effect;
  raises : option exn
}.

Section Runtime.
(** [C] is the type of classes (the type identifiers). *)
Context {C : Type} `{Countable C}.

Record object := Object {
  ob_class : C;
  ob_dict : gmap string value
}.

Inductive event :=
  | Printed (line : string)
  | Allocated (o : loc) (c : C)
  | AttrSet (o : loc) (name : string) (v : value).

(** [store] is the instance store: the [_instance] bindings of the class
    namespaces in [singleton.py], the dict [SingletonMeta._instances] in
    [singleton_meta.py]. *)
Record state := State {
  store : gmap C loc;
  heap : list object;
  trace : list event
}.

Definition initial : state := State ∅ [] [].

Inductive outcome (A : Type) :=
  | Returned (a : A) (s : state)
  | Raised (e : exn) (s : state).
Global Arguments Returned {A} a s.
Global Arguments Raised {A} e s.

Definition M (A : Type) : Type := state → outcome A.

Definition ret {A} (a : A) : M A := λ s, Returned a s.

Definition bind {A B} (m : M A) (k : A → M B) : M B :=
  λ s, match m s with
       | Returned a s' => k a s'
       | Raised e s' => Raised e s'
       end.

Definition raise {A} (e : exn) : M A := λ s, Raised e s.

Definition final_state {A} (r : outcome A) : state :=
  match r with Returned _ s => s | Raised _ s => s end.

Definition log (ev : event) : M unit :=
  λ s, Returned tt (State (store s) (heap s) (trace s ++ [ev])).

(** [print(line)] *)
Definition print (line : string) : M unit := log (Printed line).

(** [object.__new__(cls)]: a new object, at an address no object has. *)
Definition object_new (c : C) : M loc :=
  λ s, let o := length (heap s) in
       Returned o (State (store s) (heap s ++ [Object c ∅])
                         (trace s ++ [Allocated o c])).

Definition set_dict (name : string) (v : value) (ob : object) : object :=
  Object (ob_class ob) (<[name := v]> (ob_dict ob)).

(** [o.name = v] *)
Definition setattr (o : loc) (name : string) (v : value) : M unit :=
  λ s, Returned tt (State (store s) (alter (set_dict name v) o (heap s))
                          (trace s ++ [AttrSet o name v])).

Definition read_attr (s : state) (o : loc) (name : string) : option value :=
  heap s !! o ≫= λ ob, ob_dict ob !! name.

(** [o.name] for an attribute kept in the instance's own dict. *)
Definition getattr (o : loc) (name : string) : M value :=
  λ s, match read_attr s o name with
       | Some v => Returned v s
       | None => Raised (AttributeError name) s
       end.

Definition class_of (s : state) (o : loc) : option C :=
  ob_class <$> heap s !! o.

Definition run_effect (self : loc) (e : effect) : M unit :=
  match e with
  | Print line => print line
  | SetAttr name v => setattr self name v
  end.

Fixpoint run_effects (self : loc) (es : list effect) : M unit :=
  match es with
  | [] => ret tt
  | e :: es' => bind (run_effect self e) (λ _, run_effects self es')
  end.

Definition run_body (self : loc) (b : body) : M unit :=
  bind (run_effects self (effects b))
       (λ _, match raises b with
             | Some e => raise e
             | None => ret tt
             end).

(** The events a body's effects leave in the trace, and the dict they
    leave in [self]. *)
Definition event_of (self : loc) (e : effect) : event :=
  match e with
  | Print line => Printed line
  | SetAttr name v => AttrSet self name v
  end.

Definition effect_on_dict (e : effect) (d : gmap string value)
    : gmap string value :=
  match e with
  | Print _ => d
  | SetAttr name v => <[name := v]> d
  end.

Definition effects_on_dict (es : list effect) (d : gmap string value)
    : gmap string value :=
  foldl (λ d e, effect_on_dict e d) d es.

Definition effects_on_object (es : list effect) (ob : object) : object :=
  Object (ob_class ob) (effects_on_dict es (ob_dict ob)).

Definition after_effects (self : loc) (es : list effect) (s : state)
    : state :=
  State (store s) (alter (effects_on_object es) self (heap s))
        (trace s ++ map (event_of self) es).

(** A caller making the calls [cs] one after the other, going on after
    an exception: the results in order, and the state at the end. *)
Fixpoint run_calls {A} (call : C → call_args → M A)
    (cs : list (C * call_args)) (s : state) : list (exn + A) * state :=
  match cs with
  | [] => ([], s)
  | (c, a) :: cs' =>
      match call c a s with
      | Returned r s' =>
          let (rs, s'') := run_calls call cs' s' in (inr r :: rs, s'')
      | Raised e s' =>
          let (rs, s'') := run_calls call cs' s' in (inl e :: rs, s'')
      end
  end.

(** Every stored instance is an object of the class it is stored for. *)
Definition classes_ok (s : state) : Prop :=
  ∀ k o, store s !! k = Some o → class_of s o = Some k.

(** Counting in a trace. *)
Fixpoint count_events (p : event → bool) (tr : list event) : nat :=
  match tr with
  | [] => 0
  | e :: tr' => (if p e then 1 else 0) + count_events p tr'
  end.

Definition is_print (line : string) (e : event) : bool :=
  match e with Printed l => String.eqb l line | _ => false end.

Definition is_attr_set (name : string) (e : event) : bool :=
  match e with AttrSet _ n _ => String.eqb n name | _ => false end.

Definition is_alloc_of (c : C) (e : event) : bool :=
  match e with Allocated _ c' => bool_decide (c' = c) | _ => false end.
End Runtime.

Global Arguments object C : clear implicits.
Global Arguments event C : clear implicits.
Global Arguments state C {_ _}.
Global Arguments outcome C {_ _} A.
Global Arguments M C {_ _} A.

End Py.

Import Py.

Declare Scope py_scope.
Delimit Scope py_scope with py.
Notation "x <~ m ;; k" := (bind m (λ x, k))
  (at level 100, m at next level, k at level 200, right associativity,
   format "'[v' x  <~  m  ;;  '/' k ']'") : py_scope.
Notation "m ;;; k" := (bind m (λ _, k))
  (at level 100, k at level 200, right associativity,
   format "'[v' m  ;;;  '/' k ']'") : py_scope.
Open Scope py_scope.



(** ** [singleton.py]: the guard inside the class *)

Module SingletonPy.

(** The classes this guard serves: [Singleton] itself and the classes
    derived from it, which inherit [__new__], [__init__] and, until they
    get a binding of their own, the class attribute [_instance]. *)
Inductive pyclass :=
  | Singleton
  | Derived (name : string) (base : pyclass).

#[global] Instance pyclass_eq_dec : EqDecision pyclass.
Proof. solve_decision. Defined.

Fixpoint class_path (c : pyclass) : list string :=
  match c with
  | Singleton => []
  | Derived n b => n :: class_path b
  end.

Fixpoint class_of_path (p : list string) : pyclass :=
  match p with
  | [] => Singleton
  | n :: p' => Derived n (class_of_path p')
  end.

Fixpoint class_of_path_class_path (c : pyclass)
    : class_of_path (class_path c) = c :=
  match c with
  | Singleton => eq_refl
  | Derived n b => f_equal (Derived n) (class_of_path_class_path b)
  end.

#[global] Instance pyclass_countable : Countable pyclass :=
  inj_countable' class_path class_of_path class_of_path_class_path.

(** [cls.__mro__], without [object]. *)
Fixpoint mro (c : pyclass) : list pyclass :=
  c :: match c with
       | Singleton => []
       | Derived _ b => mro b
       end.

(** [issubclass(c, k)] *)
Definition issubclass (c k : pyclass) : bool := bool_decide (k ∈ mro c).

(** The value of [cls._instance]: the binding in the first namespace along
    the MRO that has one. [Singleton]'s own namespace binds it to [None]
    until an instance is stored there; a derived class has no binding of
    its own until one is assigned. [None] is the Python [None]. *)
Fixpoint _instance (st : gmap pyclass loc) (cls : pyclass) : option loc :=
  match st !! cls with
  | Some o => Some o
  | None =>
      match cls with
      | Singleton => None
      | Derived _ b => _instance st b
      end
  end.

(** Reading [cls._instance]. *)
Definition read_instance (cls : pyclass) : M pyclass (option loc) :=
  λ s, Returned (_instance (store s) cls) s.

(** [cls._instance = o]: binds in the namespace of [cls] itself. *)
Definition assign_instance (cls : pyclass) (o : loc) : M pyclass unit :=
  λ s, Returned tt (State (<[cls := o]> (store s)) (heap s) (trace s)).

Definition creating_msg : string :=
  "Creating the Singleton instance (only once)...".
Definition initializing_msg : string :=
  "Initializing the Singleton instance (only once)...".

(** [Singleton.__new__(cls, *args, **kwargs)] *)
Definition Singleton__new__ (cls : pyclass) (a : call_args)
    : M pyclass (option loc) :=
  inst <~ read_instance cls ;;
  (match inst with
   | None =>
       print creating_msg ;;;
       o <~ object_new cls ;;
       assign_instance cls o ;;;
       inst' <~ read_instance cls ;;
       match inst' with
       | Some o' => setattr o' "_initialized" (VBool false)
       | None => raise (AttributeError "_initialized")
       end
   | Some _ => ret tt
   end) ;;;
  read_instance cls.

Section Init.
(** The one-time initialization logic, the part of [__init__] the source
    marks as the place for it. *)
Variable one_time_logic : body.

(** [Singleton.__init__(self)], called with the arguments [a]. *)
Definition Singleton__init__ (self : loc) (a : call_args)
    : M pyclass unit :=
  if binds_to_self_only a then
    flag <~ getattr self "_initialized" ;;
    if negb (truthy flag) then
      print initializing_msg ;;;
      run_body self one_time_logic ;;;
      setattr self "_initialized" (VBool true)
    else ret tt
  else raise TypeError.

(** [isinstance(o, cls)] *)
Definition isinstance (o : loc) (cls : pyclass) : M pyclass bool :=
  λ s, Returned (match class_of s o with
                 | Some c => issubclass c cls
                 | None => false
                 end) s.

(** Calling the class [cls], [Singleton] or derived, with the arguments
    [a], which is [type.__call__]: [__new__] gives the object, and
    [__init__] runs on it, with the same arguments, provided it is an
    instance of [cls]. *)
Definition type__call__ (cls : pyclass) (a : call_args)
    : M pyclass (option loc) :=
  obj <~ Singleton__new__ cls a ;;
  match obj with
  | None => ret None
  | Some o =>
      inst <~ isinstance o cls ;;
      if inst then Singleton__init__ o a ;;; ret (Some o)
      else ret (Some o)
  end.
End Init.

(** The logic the source has there: [self.some_data = "Important data"]. *)
Definition source_logic : body :=
  Body [SetAttr "some_data" (VStr "Important data")] None.

(** Calling a class, with the body of [__init__] the source has. *)
Definition call : pyclass → call_args → M pyclass (option loc) :=
  type__call__ source_logic.

(** [self.some_business_logic()] *)
Definition some_business_logic (self : loc) : M pyclass unit :=
  print "Doing something important...".

Definition str_of_bool (b : bool) : string := if b then "True" else "False".

(** The script at the end of the file. *)
Definition main : M pyclass unit :=
  s1 <~ call Singleton no_args ;;
  s2 <~ call Singleton no_args ;;
  match s1, s2 with
  | Some o1, Some o2 =>
      some_business_logic o1 ;;;
      some_business_logic o2 ;;;
      print ("Are s1 and s2 the same instance? "
             ++ str_of_bool (bool_decide (o1 = o2)))
  | _, _ => raise (AttributeError "some_business_logic")
  end.

(** The state [__new__] leaves when it makes the instance of [cls]:
    the object is at the next address, bound in the namespace of [cls],
    with the flag [_initialized] cleared. *)
Definition created (cls : pyclass) (s : state pyclass) : state pyclass :=
  let o := length (heap s) in
  State (<[cls := o]> (store s))
        (heap s ++ [Object cls (<["_initialized" := VBool false]> ∅)])
        (trace s ++ [Printed creating_msg; Allocated o cls;
                     AttrSet o "_initialized" (VBool false)]).

(** The state the guarded part of [__init__] starts its logic in, and the
    one it ends in when the logic completes. *)
Definition init_started (self : loc) (s : state pyclass) : state pyclass :=
  State (store s) (heap s) (trace s ++ [Printed initializing_msg]).

Definition init_logic_done (logic : body) (self : loc) (s : state pyclass)
    : state pyclass :=
  after_effects self (effects logic) (init_started self s).

Definition init_completed (logic : body) (self : loc) (s : state pyclass)
    : state pyclass :=
  let s' := init_logic_done logic self s in
  State (store s') (alter (set_dict "_initialized" (VBool true)) self (heap s'))
        (trace s' ++ [AttrSet self "_initialized" (VBool true)]).

(** Every stored instance is an object of the class in whose namespace it
    is bound, and has the flag [_initialized]. *)
Definition store_ok (s : state pyclass) : Prop :=
  ∀ k o, store s !! k = Some o →
    ∃ ob, heap s !! o = Some ob ∧ ob_class ob = k
          ∧ is_Some (ob_dict ob !! "_initialized").

(** The logic leaves the flag [_initialized] alone. *)
Definition sets_attr (name : string) (e : effect) : bool :=
  match e with
  | SetAttr n _ => String.eqb n name
  | Print _ => false
  end.

Definition leaves_flag (logic : body) : bool :=
  forallb (λ e, negb (sets_attr "_initialized" e)) (effects logic).

(** A change of one object that keeps its class and its flag. *)
Definition keeps_object (f : object pyclass → object pyclass) : Prop :=
  ∀ ob, ob_class (f ob) = ob_class ob
        ∧ (is_Some (ob_dict ob !! "_initialized")
           → is_Some (ob_dict (f ob) !! "_initialized")).

(** What a call with the arguments [a] gives when the instance [o] of the
    class is recorded and initialized. *)
Definition later_result (o : loc) (a : call_args) : exn + option loc :=
  if binds_to_self_only a then inr (Some o) else inl TypeError.

(** The state after the calls [cs], made from a fresh process. *)
Definition after_calls (cs : list (pyclass * call_args)) : state pyclass :=
  (run_calls call cs initial).2.

End SingletonPy.


(** ** [singleton_meta.py]: the guard in the metaclass *)

Module SingletonMetaPy.

Section Meta.
(** [K] is the type of the classes declared with
    [metaclass=SingletonMeta]. Such a class has a name and an [__init__];
    [__init__ cls a] is what [cls.__init__(self, ...)] does when called
    with the arguments [a], a failed binding of [a] included: it prints
    and assigns attributes of [self], and returns or raises. The class
    keeps [object.__new__] and has no attribute [_instances] of its own,
    so that [cls._instances] is the dict of the metaclass. *)
Context {K : Type} `{Countable K}.
Variable __name__ : K → string.
Variable __init__ : K → call_args → body.

Definition creating_msg (cls : K) : string :=
  "[SingletonMeta] Creating new instance of " ++ __name__ cls.
Definition reusing_msg (cls : K) : string :=
  "[SingletonMeta] Reusing existing instance of " ++ __name__ cls.

(** [cls in cls._instances] *)
Definition contains (cls : K) : M K bool :=
  λ s, Returned (bool_decide (is_Some (store s !! cls))) s.

(** [cls._instances[cls] = o] *)
Definition setitem (cls : K) (o : loc) : M K unit :=
  λ s, Returned tt (State (<[cls := o]> (store s)) (heap s) (trace s)).

(** [cls._instances[cls]] *)
Definition getitem (cls : K) : M K loc :=
  λ s, match store s !! cls with
       | Some o => Returned o s
       | None => Raised KeyError s
       end.

(** [super().__call__(...)], which is [type.__call__]: [object.__new__]
    makes the object and the class's [__init__] runs on it. *)
Definition super__call__ (cls : K) (a : call_args) : M K loc :=
  o <~ object_new cls ;;
  run_body o (__init__ cls a) ;;;
  ret o.

(** [SingletonMeta.__call__(cls, *args, **kwargs)] *)
Definition SingletonMeta__call__ (cls : K) (a : call_args) : M K loc :=
  present <~ contains cls ;;
  (if negb present then
     print (creating_msg cls) ;;;
     o <~ super__call__ cls a ;;
     setitem cls o
   else
     print (reusing_msg cls)) ;;;
  getitem cls.

(** The state the constructor is called in: the creation notice is out. *)
Definition announced (cls : K) (s : state K) : state K :=
  State (store s) (heap s) (trace s ++ [Printed (creating_msg cls)]).

(** The state the constructor leaves: the creation notice, the new
    object, and what the class's [__init__] did to it. *)
Definition constructed (cls : K) (a : call_args) (s : state K) : state K :=
  let o := length (heap s) in
  after_effects o (effects (__init__ cls a))
    (State (store s) (heap s ++ [Object cls ∅])
           (trace s ++ [Printed (creating_msg cls); Allocated o cls])).

(** The state of a call that constructs, and of one that reuses. *)
Definition recorded (cls : K) (a : call_args) (s : state K) : state K :=
  let s' := constructed cls a s in
  State (<[cls := length (heap s)]> (store s')) (heap s') (trace s').

Definition reused (cls : K) (s : state K) : state K :=
  State (store s) (heap s) (trace s ++ [Printed (reusing_msg cls)]).
End Meta.

(** The class the file declares with the metaclass. *)
Inductive meta_class := MySingleton.

#[global] Instance meta_class_eq_dec : EqDecision meta_class.
Proof. solve_decision. Defined.

#[global] Instance meta_class_countable : Countable meta_class :=
  inj_countable' (λ _ : meta_class, tt) (λ _, MySingleton)
                 (λ c, match c with MySingleton => eq_refl end).

Definition MySingleton__name__ (cls : meta_class) : string := "MySingleton".

(** [MySingleton.__init__(self)], called with the arguments [a]. *)
Definition MySingleton__init__ (a : call_args) : body :=
  if binds_to_self_only a then
    Body [Print "MySingleton __init__ called";
          SetAttr "data" (VStr "Some important shared data")] None
  else Body [] (Some TypeError).

(** Calling [MySingleton]. *)
Definition call : meta_class → call_args → M meta_class loc :=
  SingletonMeta__call__ MySingleton__name__ (λ _, MySingleton__init__).

(** The longest integer, in decimal digits, that [str] converts (the
    default of CPython from 3.11 on). *)
Definition max_str_digits : Z := 4300.

(** Whether a value is a reference to an object. *)
Definition is_reference (v : value) : bool :=
  match v with
  | VRef _ => true
  | _ => false
  end.

(** [str(v)], as the f-string of [do_something] takes it. An integer of
    more than [max_str_digits] digits raises [ValueError]. An object, here
    one of [MySingleton], which defines neither [__str__] nor [__repr__],
    is shown by its class, with the module as imported, and its address,
    which is its identity. *)
Definition str_of_value (v : value) : exn + string :=
  match v with
  | VNone => inr "None"
  | VBool b => inr (if b then "True" else "False")
  | VInt n =>
      if bool_decide (Z.abs n < 10 ^ max_str_digits)%Z then inr (pretty n)
      else inl ValueError
  | VStr s => inr s
  | VRef o =>
      inr ("<singleton_meta.MySingleton object at " +:+ HexString.of_nat o
           +:+ ">")
  end.

(** [self.do_something()] *)
Definition do_something (self : loc) : M meta_class unit :=
  data <~ getattr self "data" ;;
  match str_of_value data with
  | inr text => print ("Doing something with " +:+ text)
  | inl e => raise e
  end.

Definition assertion_msg : string :=
  "Singleton failed: Different instances exist!".

(** [test_singleton()] *)
Definition test_singleton : M meta_class unit :=
  print (String "010"%char "--- Testing Singleton ---") ;;;
  s1 <~ call MySingleton no_args ;;
  s2 <~ call MySingleton no_args ;;
  do_something s1 ;;;
  do_something s2 ;;;
  print ("s1 id: " ++ pretty s1) ;;;
  print ("s2 id: " ++ pretty s2) ;;;
  (if bool_decide (s1 = s2) then ret tt
   else raise (AssertionError assertion_msg)) ;;;
  print "✅ Singleton test passed: s1 and s2 are the same instance.".

(** The state after the calls [cs], made from a fresh process. *)
Definition after_calls (cs : list (meta_class * call_args))
    : state meta_class :=
  (run_calls call cs initial).2.

End SingletonMetaPy.


(** ** Comparing the two files *)

Module Compare.
Import SingletonPy.

(** Whether a call returned. *)
Definition returned {A} (r : exn + A) : bool :=
  match r with
  | inr _ => true
  | inl _ => false
  end.

(** Two runs show the same pattern of object identities: as many calls,
    the same calls return, and two calls return one object in the one run
    exactly when they do in the other. *)
Definition same_pattern {A B} (rs1 : list (exn + A)) (rs2 : list (exn + B))
    : Prop :=
  length rs1 = length rs2
  ∧ (∀ i r1 r2, rs1 !! i = Some r1 → rs2 !! i = Some r2 →
       returned r1 = returned r2)
  ∧ (∀ i j a1 a2 b1 b2,
       rs1 !! i = Some (inr a1) → rs1 !! j = Some (inr a2) →
       rs2 !! i = Some (inr b1) → rs2 !! j = Some (inr b2) →
       (a1 = a2 ↔ b1 = b2)).

(** Classes none of which derives from another. *)
Definition unrelated (cs : list pyclass) : Prop :=
  ∀ c1 c2, c1 ∈ cs → c2 ∈ cs → c1 ∈ mro c2 → c1 = c2.

(** Calls without arguments, one per class of [cs]. *)
Definition calls_of {C} (cs : list C) : list (C * call_args) :=
  map (λ c, (c, no_args)) cs.

(** A state of [singleton.py] and a state of [singleton_meta.py], over
    the same classes, that went through the same calls of classes of
    [cs]: the stores are equal, as many objects were made, and every
    stored instance of the former is an initialized object of its class. *)
Definition agree (cs : list pyclass) (sp sr : state pyclass) : Prop :=
  store sp = store sr
  ∧ length (heap sp) = length (heap sr)
  ∧ ∀ k o, store sp !! k = Some o →
      k ∈ cs ∧ class_of sp o = Some k
      ∧ read_attr sp o "_initialized" = Some (VBool true).

End Compare.

(** ** Invariants of the reachable states *)

Module Invariants.
Import SingletonPy.

(** [singleton.py]: a stored instance is as [__new__] made it, flag
    cleared and no data yet, or as [__init__] completed it, flag set and
    data assigned. *)
Definition flag_ok (s : state pyclass) : Prop :=
  ∀ k o, store s !! k = Some o →
    (read_attr s o "_initialized" = Some (VBool false)
     ∧ read_attr s o "some_data" = None)
    ∨ (read_attr s o "_initialized" = Some (VBool true)
       ∧ read_attr s o "some_data" = Some (VStr "Important data")).

(** [singleton_meta.py]: the recorded instance of [MySingleton], if any,
    has the data its [__init__] assigned. *)
Definition data_ok (s : state SingletonMetaPy.meta_class) : Prop :=
  ∀ o, store s !! SingletonMetaPy.MySingleton = Some o →
    read_attr s o "data" = Some (VStr "Some important shared data").

(** The number of calls of a run that raised. *)
Fixpoint failures {A} (rs : list (exn + A)) : nat :=
  match rs with
  | [] => 0
  | inl _ :: rs' => S (failures rs')
  | inr _ :: rs' => failures rs'
  end.

(** The state after the assignment [o.name = v]. *)
Definition assigned {C} `{Countable C} (o : loc) (name : string) (v : value)
    (s : state C) : state C :=
  final_state (setattr o name v s).

End Invariants.

(** * Properties *)

(** ** The runtime *)

Section RuntimeFacts.
Context {C : Type} `{Countable C}.
Implicit Types (s : state C) (o : loc) (es : list effect).

Lemma state_eta s : State (store s) (heap s) (trace s) = s.
Proof. by destruct s. Qed.

Lemma run_effects_after self es s :
  run_effects self es s = Returned tt (after_effects self es s).
Proof.
  revert s. induction es as [|e es IH]; intros s.
  - simpl. unfold ret, after_effects. simpl. rewrite app_nil_r.
    rewrite list_alter_id; [by rewrite state_eta | by intros []].
  - simpl. unfold bind. destruct e as [line|name v]; simpl.
    + unfold print, log. rewrite IH. unfold after_effects. simpl.
      rewrite <- app_assoc. done.
    + unfold setattr. rewrite IH. unfold after_effects. simpl.
      rewrite <- app_assoc, list_alter_alter_eq. done.
Qed.

Lemma alter_last (f : object C → object C) (h : list (object C)) ob :
  alter f (length h) (h ++ [ob]) = h ++ [f ob].
Proof.
  replace (length h) with (length h + 0) at 1 by lia.
  by rewrite alter_app_r.
Qed.

Lemma lookup_last (h : list (object C)) ob :
  (h ++ [ob]) !! length h = Some ob.
Proof. by rewrite lookup_app_r, Nat.sub_diag. Qed.

Lemma run_body_ok self b s :
  raises b = None →
  run_body self b s = Returned tt (after_effects self (effects b) s).
Proof.
  intros Hb. unfold run_body, bind. rewrite run_effects_after, Hb. done.
Qed.

Lemma run_body_raises self b e s :
  raises b = Some e →
  run_body self b s = Raised e (after_effects self (effects b) s).
Proof.
  intros Hb. unfold run_body, bind. rewrite run_effects_after, Hb. done.
Qed.


(** What every call preserves, a sequence of calls preserves. *)
Lemma run_calls_invariant {A} (call : C → call_args → M C A)
    (P : state C → Prop) :
  (∀ c a s, P s → P (final_state (call c a s))) →
  ∀ cs s, P s → P (run_calls call cs s).2.
Proof.
  intros Hstep cs. induction cs as [|[c a] cs IH]; intros s Hs; simpl;
    [done|].
  specialize (Hstep c a s Hs).
  destruct (call c a s) as [r s'|e s']; simpl in Hstep;
    specialize (IH s' Hstep);
    by destruct (run_calls call cs s').
Qed.

Lemma count_events_replicate_other (p : event C → bool) n (ev : event C) :
  p ev = false → count_events p (replicate n ev) = 0.
Proof. intros Hp. induction n as [|n IH]; simpl; [done|]. by rewrite Hp. Qed.

Lemma read_attr_after_effects o es s n :
  read_attr (after_effects o es s) o n
  = heap s !! o ≫= λ ob, effects_on_dict es (ob_dict ob) !! n.
Proof.
  unfold read_attr, after_effects. simpl.
  rewrite list_lookup_alter_eq. by destruct (heap s !! o).
Qed.

Lemma class_of_after_effects o es s o' :
  class_of (after_effects o es s) o' = class_of s o'.
Proof.
  unfold class_of, after_effects. simpl.
  destruct (decide (o = o')) as [->|Hne].
  - rewrite list_lookup_alter_eq. by destruct (heap s !! o').
  - by rewrite list_lookup_alter_ne.
Qed.

End RuntimeFacts.

(** ** [singleton.py] *)

Section SingletonFacts.
Import SingletonPy.
Implicit Types (s : state pyclass) (o : loc) (cls k : pyclass)
               (a : call_args) (logic : body) (st : gmap pyclass loc).

(** *** The class hierarchy *)

Lemma mro_self cls : cls ∈ mro cls.
Proof. destruct cls; simpl; apply list_elem_of_here. Qed.

Lemma mro_length k cls : k ∈ mro cls → length (mro k) ≤ length (mro cls).
Proof.
  induction cls as [|n b IH]; simpl; intros Hk.
  - apply list_elem_of_singleton in Hk. by subst.
  - apply elem_of_cons in Hk as [->|Hk]; [done|].
    specialize (IH Hk). simpl in IH. lia.
Qed.


Lemma issubclass_refl cls : issubclass cls cls = true.
Proof. unfold issubclass. apply bool_decide_eq_true_2, mro_self. Qed.

(** *** Reading and binding [_instance] *)

Lemma instance_own st cls o : st !! cls = Some o → _instance st cls = Some o.
Proof. intros Ho. destruct cls; simpl; by rewrite Ho. Qed.

Lemma instance_insert_eq st cls o : _instance (<[cls := o]> st) cls = Some o.
Proof. apply instance_own, lookup_insert_eq. Qed.

Lemma instance_None_own st cls : _instance st cls = None → st !! cls = None.
Proof. destruct cls; simpl; destruct (st !! _); done. Qed.

(** The value of [k._instance] comes from the namespace of a class of the
    MRO of [k]. *)
Lemma instance_origin st k o :
  _instance st k = Some o → ∃ c, c ∈ mro k ∧ st !! c = Some o.
Proof.
  induction k as [|n b IH]; simpl.
  - destruct (st !! Singleton) eqn:E; [|done].
    intros [= ->]. exists Singleton. split; [apply list_elem_of_here|done].
  - destruct (st !! Derived n b) eqn:E.
    + intros [= ->]. exists (Derived n b). split; [apply list_elem_of_here|done].
    + intros Hb. destruct (IH Hb) as (c & Hc & Hst).
      exists c. split; [by apply list_elem_of_further|done].
Qed.

(** Binding [cls._instance] when it reads [None] changes no class's
    [_instance] that holds an instance. *)
Lemma instance_insert_stable st cls o' k o :
  _instance st cls = None →
  _instance st k = Some o →
  _instance (<[cls := o']> st) k = Some o.
Proof.
  intros Hcls. induction k as [|n b IH]; simpl.
  - destruct (decide (cls = Singleton)) as [->|Hne].
    + simpl in Hcls. destruct (st !! Singleton); done.
    + by rewrite lookup_insert_ne.
  - destruct (decide (cls = Derived n b)) as [->|Hne].
    + simpl in Hcls. destruct (st !! Derived n b); [done|]. congruence.
    + rewrite lookup_insert_ne by done.
      destruct (st !! Derived n b); [done|]. apply IH.
Qed.

(** *** [__new__] *)

Lemma new_reuse cls a s o :
  _instance (store s) cls = Some o →
  Singleton__new__ cls a s = Returned (Some o) s.
Proof.
  intros Ho. unfold Singleton__new__, bind, read_instance, ret.
  rewrite Ho. simpl. by rewrite Ho.
Qed.

Lemma new_create cls a s :
  _instance (store s) cls = None →
  Singleton__new__ cls a s
  = Returned (Some (length (heap s))) (created cls s).
Proof.
  intros Ho. unfold Singleton__new__, bind, read_instance.
  rewrite Ho. simpl. rewrite instance_insert_eq. simpl.
  rewrite instance_insert_eq. unfold created. simpl.
  rewrite alter_last. unfold set_dict. simpl.
  by rewrite <- !app_assoc.
Qed.

(** *** [__init__] *)

Lemma init_rejects_args logic o a s :
  binds_to_self_only a = false →
  Singleton__init__ logic o a s = Raised TypeError s.
Proof. intros Ha. unfold Singleton__init__. by rewrite Ha. Qed.

Lemma init_no_flag logic o a s :
  binds_to_self_only a = true →
  read_attr s o "_initialized" = None →
  Singleton__init__ logic o a s = Raised (AttributeError "_initialized") s.
Proof.
  intros Ha Hf. unfold Singleton__init__, bind, getattr.
  by rewrite Ha, Hf.
Qed.

Lemma init_skips logic o a s v :
  binds_to_self_only a = true →
  read_attr s o "_initialized" = Some v → truthy v = true →
  Singleton__init__ logic o a s = Returned tt s.
Proof.
  intros Ha Hf Hv. unfold Singleton__init__, bind, getattr.
  by rewrite Ha, Hf, Hv.
Qed.

Lemma init_runs logic o a s v :
  binds_to_self_only a = true →
  read_attr s o "_initialized" = Some v → truthy v = false →
  raises logic = None →
  Singleton__init__ logic o a s = Returned tt (init_completed logic o s).
Proof.
  intros Ha Hf Hv Hl. unfold Singleton__init__, bind, getattr.
  rewrite Ha, Hf, Hv. simpl.
  by rewrite run_body_ok.
Qed.

Lemma init_fails logic o a s v e :
  binds_to_self_only a = true →
  read_attr s o "_initialized" = Some v → truthy v = false →
  raises logic = Some e →
  Singleton__init__ logic o a s = Raised e (init_logic_done logic o s).
Proof.
  intros Ha Hf Hv Hl. unfold Singleton__init__, bind, getattr.
  rewrite Ha, Hf, Hv. simpl.
  by rewrite (run_body_raises _ _ e).
Qed.

(** *** Calling the class *)

Lemma call_reuse logic cls a s o :
  _instance (store s) cls = Some o →
  type__call__ logic cls a s
  = match class_of s o with
    | Some c =>
        if issubclass c cls then
          match Singleton__init__ logic o a s with
          | Returned _ s' => Returned (Some o) s'
          | Raised e s' => Raised e s'
          end
        else Returned (Some o) s
    | None => Returned (Some o) s
    end.
Proof.
  intros Ho. unfold type__call__, bind. rewrite (new_reuse _ _ _ o Ho).
  unfold isinstance. destruct (class_of s o) as [c|]; [|done].
  destruct (issubclass c cls); [|done].
  by destruct (Singleton__init__ logic o a s).
Qed.

Lemma class_of_created cls s :
  class_of (created cls s) (length (heap s)) = Some cls.
Proof. unfold class_of, created. simpl. by rewrite lookup_last. Qed.

Lemma read_flag_created cls s :
  read_attr (created cls s) (length (heap s)) "_initialized"
  = Some (VBool false).
Proof. unfold read_attr, created. simpl. by rewrite lookup_last. Qed.

Lemma call_create logic cls a s :
  _instance (store s) cls = None →
  type__call__ logic cls a s
  = match Singleton__init__ logic (length (heap s)) a (created cls s) with
    | Returned _ s' => Returned (Some (length (heap s))) s'
    | Raised e s' => Raised e s'
    end.
Proof.
  intros Ho. unfold type__call__, bind. rewrite (new_create _ _ _ Ho).
  unfold isinstance. rewrite class_of_created, issubclass_refl.
  by destruct (Singleton__init__ _ _ _ _).
Qed.

(** *** What a call leaves behind *)

Lemma keeps_object_id : keeps_object id.
Proof. by intros ob. Qed.

Lemma effects_on_dict_keeps es (d : gmap string value) n :
  is_Some (d !! n) → is_Some (effects_on_dict es d !! n).
Proof.
  unfold effects_on_dict. revert d.
  induction es as [|e es IH]; intros d Hd; simpl; [done|].
  apply IH. destruct e as [line|m v]; simpl; [done|].
  destruct (decide (m = n)) as [->|Hne].
  - rewrite lookup_insert_eq. by eexists.
  - by rewrite lookup_insert_ne.
Qed.

Lemma keeps_object_effects es : keeps_object (effects_on_object es).
Proof.
  intros ob. split; [done|]. simpl. apply effects_on_dict_keeps.
Qed.

Lemma keeps_object_set_flag v :
  keeps_object (set_dict "_initialized" v).
Proof.
  intros ob. split; [done|]. intros _. simpl.
  rewrite lookup_insert_eq. by eexists.
Qed.

Lemma keeps_object_compose f g :
  keeps_object f → keeps_object g → keeps_object (f ∘ g).
Proof.
  intros Hf Hg ob. destruct (Hf (g ob)) as [Hc Hk], (Hg ob) as [Hc' Hk'].
  simpl. split; [congruence|auto].
Qed.

(** [__init__] touches [self] only, keeps its class and flag, keeps the
    store, and only adds to the trace. *)
Lemma init_final logic o a s :
  let s' := final_state (Singleton__init__ logic o a s) in
  store s' = store s
  ∧ (∃ f, keeps_object f ∧ heap s' = alter f o (heap s))
  ∧ (∃ tr, trace s' = trace s ++ tr).
Proof.
  assert (Hsame : store s = store s
    ∧ (∃ f, keeps_object f ∧ heap s = alter f o (heap s))
    ∧ (∃ tr, trace s = trace s ++ tr)).
  { split; [done|]. split.
    - exists id. split; [apply keeps_object_id|].
      by rewrite list_alter_id.
    - exists []. by rewrite app_nil_r. }
  destruct (binds_to_self_only a) eqn:Ha;
    [|by rewrite init_rejects_args].
  destruct (read_attr s o "_initialized") as [v|] eqn:Hf;
    [|by rewrite init_no_flag].
  destruct (truthy v) eqn:Hv; [by rewrite (init_skips _ _ _ _ v)|].
  destruct (raises logic) as [e|] eqn:Hl.
  - rewrite (init_fails _ _ _ _ v e) by done. simpl.
    split; [done|]. split.
    + exists (effects_on_object (effects logic)).
      split; [apply keeps_object_effects|done].
    + eexists. by rewrite <- app_assoc.
  - rewrite (init_runs _ _ _ _ v) by done. simpl.
    split; [done|]. split.
    + eexists. split; [|by rewrite list_alter_alter_eq].
      apply keeps_object_compose;
        [apply keeps_object_set_flag|apply keeps_object_effects].
    + eexists. by rewrite <- !app_assoc.
Qed.

Lemma store_ok_alter s s' f o :
  store_ok s → store s' = store s → keeps_object f →
  heap s' = alter f o (heap s) → store_ok s'.
Proof.
  intros Hok Hst Hf Hh k o' Hk. rewrite Hst in Hk.
  destruct (Hok k o' Hk) as (ob & Hob & Hc & Hfl).
  rewrite Hh. destruct (decide (o = o')) as [->|Hne].
  - exists (f ob). rewrite list_lookup_alter_eq, Hob. simpl.
    destruct (Hf ob) as [Hc' Hk']. split; [done|]. split; [congruence|auto].
  - exists ob. by rewrite list_lookup_alter_ne.
Qed.

Lemma store_ok_created cls s : store_ok s → store_ok (created cls s).
Proof.
  intros Hok k o. unfold created. simpl.
  destruct (decide (cls = k)) as [->|Hne].
  - rewrite lookup_insert_eq. intros [= <-].
    eexists. rewrite lookup_last. split; [done|]. split; [done|].
    simpl. rewrite lookup_insert_eq. by eexists.
  - rewrite lookup_insert_ne by done. intros Hk.
    destruct (Hok k o Hk) as (ob & Hob & Hc & Hfl).
    exists ob. split; [|done].
    rewrite lookup_app_l; [done|]. by eapply lookup_lt_Some.
Qed.

Lemma store_ok_initial : store_ok initial.
Proof. intros k o. simpl. by rewrite lookup_empty. Qed.

(** The state a call leaves, whether it returns or raises: the state
    [__new__] leaves, then what [__init__] does to it if it runs. *)
Lemma call_final logic cls a s :
  let s' := final_state (type__call__ logic cls a s) in
  ∃ s0 o, (s0 = s ∨ (_instance (store s) cls = None ∧ s0 = created cls s))
    ∧ store s' = store s0
    ∧ (∃ f, keeps_object f ∧ heap s' = alter f o (heap s0))
    ∧ (∃ tr, trace s' = trace s0 ++ tr).
Proof.
  assert (Hsame : ∀ o, store s = store s
    ∧ (∃ f, keeps_object f ∧ heap s = alter f o (heap s))
    ∧ (∃ tr, trace s = trace s ++ tr)).
  { intros o. split; [done|]. split.
    - exists id. split; [apply keeps_object_id|].
      by rewrite list_alter_id.
    - exists []. by rewrite app_nil_r. }
  destruct (_instance (store s) cls) as [o|] eqn:Ho.
  - rewrite (call_reuse _ _ _ _ o Ho).
    exists s, o. split; [by left|].
    destruct (class_of s o) as [c|]; [|apply Hsame].
    destruct (issubclass c cls); [|apply Hsame].
    pose proof (init_final logic o a s) as Hi.
    by destruct (Singleton__init__ logic o a s).
  - rewrite (call_create _ _ _ _ Ho).
    exists (created cls s), (length (heap s)). split; [by right|].
    pose proof (init_final logic (length (heap s)) a (created cls s)) as Hi.
    by destruct (Singleton__init__ logic _ a (created cls s)).
Qed.

Lemma call_store_ok logic cls a s :
  store_ok s → store_ok (final_state (type__call__ logic cls a s)).
Proof.
  intros Hok.
  destruct (call_final logic cls a s) as (s0 & o & Hs0 & Hst & (f & Hf & Hh) & _).
  eapply store_ok_alter; [|done..].
  destruct Hs0 as [->|[_ ->]]; [done|by apply store_ok_created].
Qed.

Lemma run_calls_store_ok logic cs s :
  store_ok s → store_ok (run_calls (type__call__ logic) cs s).2.
Proof.
  apply (run_calls_invariant _ store_ok). intros c a s'.
  apply call_store_ok.
Qed.

Lemma after_calls_store_ok cs : store_ok (after_calls cs).
Proof. apply run_calls_store_ok, store_ok_initial. Qed.

(** A call never changes a class's [_instance] once it holds an
    instance, nor a binding of a class namespace. *)
Lemma call_instance_stable logic cls a s k o :
  _instance (store s) k = Some o →
  _instance (store (final_state (type__call__ logic cls a s))) k = Some o.
Proof.
  intros Hk.
  destruct (call_final logic cls a s) as (s0 & o' & Hs0 & -> & _).
  destruct Hs0 as [->|[Hnone ->]]; [done|].
  unfold created. simpl. by apply instance_insert_stable.
Qed.

Lemma call_binding_stable logic cls a s k o :
  store s !! k = Some o →
  store (final_state (type__call__ logic cls a s)) !! k = Some o.
Proof.
  intros Hk.
  destruct (call_final logic cls a s) as (s0 & o' & Hs0 & -> & _).
  destruct Hs0 as [->|[Hnone ->]]; [done|].
  unfold created. simpl. rewrite lookup_insert_ne; [done|].
  intros ->. apply instance_None_own in Hnone. congruence.
Qed.

(** *** Calls that return *)

(** When [cls._instance] holds an instance, a call that returns returns
    that instance. *)
Lemma call_reuse_same logic cls a s o r s' :
  _instance (store s) cls = Some o →
  type__call__ logic cls a s = Returned r s' → r = Some o.
Proof.
  intros Ho. rewrite (call_reuse _ _ _ _ o Ho).
  destruct (class_of s o) as [c|]; [|congruence].
  destruct (issubclass c cls); [|congruence].
  destruct (Singleton__init__ logic o a s); congruence.
Qed.

(** What a call returns is what [cls._instance] then holds. *)
Lemma call_returned logic cls a s r s' :
  type__call__ logic cls a s = Returned r s' →
  ∃ o, r = Some o ∧ _instance (store s') cls = Some o.
Proof.
  intros Hr.
  pose proof (call_final logic cls a s) as Hf. rewrite Hr in Hf. simpl in Hf.
  destruct Hf as (s0 & o' & Hs0 & Hst & _).
  destruct (_instance (store s) cls) as [o|] eqn:Ho.
  - exists o. split; [by eapply call_reuse_same|].
    rewrite Hst. destruct Hs0 as [->|[? ->]]; [done|congruence].
  - exists (length (heap s)). rewrite (call_create _ _ _ _ Ho) in Hr.
    split; [destruct (Singleton__init__ _ _ _ _); congruence|].
    rewrite Hst. destruct Hs0 as [->|[_ ->]].
    + destruct (Singleton__init__ _ _ _ _) as [u s1|e s1] eqn:Hi;
        [|done].
      injection Hr as _ <-.
      pose proof (init_final logic (length (heap s)) a (created cls s)) as Hif.
      rewrite Hi in Hif. destruct Hif as (Hst' & _). simpl in Hst'.
      rewrite Hst in Hst'. rewrite Hst'. apply instance_insert_eq.
    + apply instance_insert_eq.
Qed.

(** With the source's logic and no arguments, a call returns whenever
    the stored instances are well formed. *)
Lemma call_no_args_returns cls s :
  store_ok s →
  ∃ o s', call cls no_args s = Returned (Some o) s'.
Proof.
  intros Hok. unfold call.
  destruct (_instance (store s) cls) as [o|] eqn:Ho.
  - rewrite (call_reuse _ _ _ _ o Ho).
    destruct (instance_origin _ _ _ Ho) as (c & Hc & Hst).
    destruct (Hok c o Hst) as (ob & Hob & Hcl & [v Hv]).
    unfold class_of. rewrite Hob. simpl.
    destruct (issubclass (ob_class ob) cls); [|by eauto].
    assert (Hf : read_attr s o "_initialized" = Some v).
    { unfold read_attr. by rewrite Hob. }
    destruct (truthy v) eqn:Htv.
    + rewrite (init_skips _ _ _ _ v) by done. eauto.
    + rewrite (init_runs _ _ _ _ v) by done. eauto.
  - rewrite (call_create _ _ _ _ Ho).
    rewrite (init_runs _ _ _ _ (VBool false));
      [eauto|done|apply read_flag_created|done|done].
Qed.

(** The first call for [cls], and the calls after it. *)
Lemma call_first cls s :
  _instance (store s) cls = None →
  call cls no_args s
  = Returned (Some (length (heap s)))
      (init_completed source_logic (length (heap s)) (created cls s)).
Proof.
  intros Ho. unfold call. rewrite (call_create _ _ _ _ Ho).
  by rewrite (init_runs _ _ _ _ (VBool false));
    [|done|apply read_flag_created|done|done].
Qed.

Lemma call_again logic cls a s o :
  _instance (store s) cls = Some o →
  class_of s o = Some cls →
  read_attr s o "_initialized" = Some (VBool true) →
  binds_to_self_only a = true →
  type__call__ logic cls a s = Returned (Some o) s.
Proof.
  intros Ho Hc Hf Ha. rewrite (call_reuse _ _ _ _ o Ho), Hc.
  rewrite issubclass_refl.
  by rewrite (init_skips _ _ _ _ (VBool true)).
Qed.

(** *** The flag *)

Lemma effects_leave_flag es (d : gmap string value) :
  forallb (λ e, negb (sets_attr "_initialized" e)) es = true →
  effects_on_dict es d !! "_initialized" = d !! "_initialized".
Proof.
  unfold effects_on_dict. revert d.
  induction es as [|e es IH]; intros d Hes; simpl in *; [done|].
  apply andb_true_iff in Hes as [He Hes]. rewrite IH by done.
  destruct e as [line|n v]; simpl in *; [done|].
  apply negb_true_iff, String.eqb_neq in He.
  by rewrite lookup_insert_ne.
Qed.

Lemma read_flag_logic_done logic o s :
  leaves_flag logic = true →
  read_attr (init_logic_done logic o s) o "_initialized"
  = read_attr s o "_initialized".
Proof.
  intros Hl. unfold init_logic_done. rewrite read_attr_after_effects.
  unfold read_attr, init_started. simpl.
  destruct (heap s !! o) as [ob|]; [|done]. simpl.
  by apply effects_leave_flag.
Qed.

Lemma read_flag_completed logic o s :
  is_Some (heap s !! o) →
  read_attr (init_completed logic o s) o "_initialized" = Some (VBool true).
Proof.
  intros [ob Hob]. unfold read_attr, init_completed, init_logic_done,
    after_effects, init_started. simpl.
  rewrite !list_lookup_alter_eq, Hob. simpl. by rewrite lookup_insert_eq.
Qed.

Lemma class_of_logic_done logic o s o' :
  class_of (init_logic_done logic o s) o' = class_of s o'.
Proof. unfold init_logic_done. by rewrite class_of_after_effects. Qed.

(** A call for an instance of [cls] that is recorded but not initialized
    runs the logic on it. *)
Lemma call_uninitialized logic cls s o v :
  _instance (store s) cls = Some o →
  class_of s o = Some cls →
  read_attr s o "_initialized" = Some v → truthy v = false →
  type__call__ logic cls no_args s
  = match raises logic with
    | None => Returned (Some o) (init_completed logic o s)
    | Some e => Raised e (init_logic_done logic o s)
    end.
Proof.
  intros Ho Hc Hf Hv. rewrite (call_reuse _ _ _ _ o Ho), Hc.
  rewrite issubclass_refl. destruct (raises logic) as [e|] eqn:Hl.
  - by rewrite (init_fails _ _ _ _ v e).
  - by rewrite (init_runs _ _ _ _ v).
Qed.

(** The first call for [cls], with any logic. *)
Lemma call_first_logic logic cls s :
  _instance (store s) cls = None →
  type__call__ logic cls no_args s
  = match raises logic with
    | None => Returned (Some (length (heap s)))
                (init_completed logic (length (heap s)) (created cls s))
    | Some e => Raised e (init_logic_done logic (length (heap s))
                            (created cls s))
    end.
Proof.
  intros Ho. rewrite (call_create _ _ _ _ Ho).
  destruct (raises logic) as [e|] eqn:Hl.
  - by rewrite (init_fails _ _ _ _ (VBool false) e);
      [|done|apply read_flag_created|done|done].
  - by rewrite (init_runs _ _ _ _ (VBool false));
      [|done|apply read_flag_created|done|done].
Qed.

(** *** Calling again and again *)

Lemma completed_ready logic cls s :
  let o := length (heap s) in
  let s1 := init_completed logic o (created cls s) in
  _instance (store s1) cls = Some o
  ∧ class_of s1 o = Some cls
  ∧ read_attr s1 o "_initialized" = Some (VBool true).
Proof.
  intros o s1. unfold s1, o. clear s1 o.
  split; [apply instance_insert_eq|]. split.
  - unfold class_of, init_completed, init_logic_done, after_effects,
      created. simpl. by rewrite !list_lookup_alter_eq, lookup_last.
  - apply read_flag_completed. unfold created. simpl.
    rewrite lookup_last. by eexists.
Qed.

(** *** Derived classes *)

Lemma store_ok_class s k o :
  store_ok s → store s !! k = Some o → class_of s o = Some k.
Proof.
  intros Hok Hk. destruct (Hok k o Hk) as (ob & Hob & Hc & _).
  unfold class_of. rewrite Hob. simpl. by rewrite Hc.
Qed.

Lemma not_subclass_of_derived c n b :
  c ∈ mro b → issubclass c (Derived n b) = false.
Proof.
  intros Hc. unfold issubclass. apply bool_decide_eq_false_2. intros Hd.
  apply mro_length in Hc, Hd. simpl in Hd. lia.
Qed.

(** A class derived from one whose [_instance] holds an instance, and
    with no binding of its own, gets that instance from a call, whatever
    the arguments, and [__init__] does not run. *)
Lemma call_derived_shares logic n b a s o :
  store_ok s →
  _instance (store s) b = Some o →
  store s !! Derived n b = None →
  type__call__ logic (Derived n b) a s = Returned (Some o) s.
Proof.
  intros Hok Hb Hd.
  assert (Ho : _instance (store s) (Derived n b) = Some o).
  { simpl. by rewrite Hd. }
  rewrite (call_reuse _ _ _ _ o Ho).
  destruct (instance_origin _ _ _ Hb) as (c & Hc & Hst).
  rewrite (store_ok_class _ _ _ Hok Hst).
  by rewrite not_subclass_of_derived.
Qed.

Lemma call_rejects_args logic cls a s o :
  _instance (store s) cls = Some o →
  class_of s o = Some cls →
  binds_to_self_only a = false →
  type__call__ logic cls a s = Raised TypeError s.
Proof.
  intros Ho Hc Ha. rewrite (call_reuse _ _ _ _ o Ho), Hc, issubclass_refl.
  by rewrite init_rejects_args.
Qed.

(** Once the instance of [cls] is recorded and initialized, calls of
    [cls], whatever their arguments, leave the state as it is. *)
Lemma run_calls_settled logic cls (rest : list call_args) s o :
  _instance (store s) cls = Some o →
  class_of s o = Some cls →
  read_attr s o "_initialized" = Some (VBool true) →
  run_calls (type__call__ logic) (map (pair cls) rest) s
  = (map (later_result o) rest, s).
Proof.
  intros Ho Hc Hf. induction rest as [|a rest IH]; simpl; [done|].
  unfold later_result at 1. destruct (binds_to_self_only a) eqn:Ha.
  - by rewrite (call_again _ _ _ _ o), IH.
  - by rewrite (call_rejects_args _ _ _ _ o), IH.
Qed.

Lemma run_calls_fresh cls (rest : list call_args) s :
  _instance (store s) cls = None →
  run_calls SingletonPy.call ((cls, no_args) :: map (pair cls) rest) s
  = (inr (Some (length (heap s))) :: map (later_result (length (heap s))) rest,
     init_completed source_logic (length (heap s)) (created cls s)).
Proof.
  intros Ho. destruct (completed_ready source_logic cls s) as (Hi & Hc & Hf).
  simpl. rewrite (call_first _ _ Ho). unfold SingletonPy.call.
  by rewrite (run_calls_settled _ _ _ _ (length (heap s))).
Qed.

Lemma later_result_no_args o n :
  map (later_result o) (replicate n no_args) = replicate n (inr (Some o)).
Proof. induction n as [|n IH]; simpl; [done|]. by rewrite IH. Qed.


(** The script of the file ends normally and reports one instance. *)
Example main_reports_same_instance :
  ∃ s', main initial = Returned tt s'
        ∧ last (trace s')
          = Some (Printed "Are s1 and s2 the same instance? True").
Proof. eexists. split; vm_compute; reflexivity. Qed.
End SingletonFacts.

(** ** [singleton_meta.py] *)

Section MetaFacts.
Import SingletonMetaPy.
Context {K : Type} `{Countable K}.
Variable __name__ : K → string.
Variable __init__ : K → call_args → body.
Implicit Types (s : state K) (o : loc) (cls k : K) (a : call_args).

Local Abbreviation meta_call := (SingletonMeta__call__ __name__ __init__).
Local Abbreviation constructed := (constructed __name__ __init__).
Local Abbreviation recorded := (recorded __name__ __init__).
Local Abbreviation reused := (reused __name__).

Lemma meta_call_reuse cls a s o :
  store s !! cls = Some o →
  meta_call cls a s = Returned o (reused cls s).
Proof.
  intros Ho. unfold SingletonMeta__call__, bind, contains.
  rewrite Ho, bool_decide_eq_true_2 by (by eexists). simpl.
  unfold getitem. simpl. by rewrite Ho.
Qed.

Lemma meta_call_create cls a s :
  store s !! cls = None → raises (__init__ cls a) = None →
  meta_call cls a s = Returned (length (heap s)) (recorded cls a s).
Proof.
  intros Ho Hi. unfold SingletonMeta__call__, bind, contains.
  rewrite Ho. rewrite bool_decide_eq_false_2 by apply is_Some_None. simpl.
  unfold super__call__, bind. simpl.
  rewrite run_body_ok by done. simpl.
  unfold getitem. simpl. rewrite lookup_insert_eq.
  unfold recorded, SingletonMetaPy.constructed, after_effects. simpl.
  by rewrite <- !app_assoc.
Qed.

Lemma meta_call_fail cls a s e :
  store s !! cls = None → raises (__init__ cls a) = Some e →
  meta_call cls a s = Raised e (constructed cls a s).
Proof.
  intros Ho Hi. unfold SingletonMeta__call__, bind, contains.
  rewrite Ho. rewrite bool_decide_eq_false_2 by apply is_Some_None. simpl.
  unfold super__call__, bind. simpl.
  rewrite (run_body_raises _ _ e) by done.
  unfold SingletonMetaPy.constructed, after_effects. simpl.
  by rewrite <- !app_assoc.
Qed.

(** What a call returns is what the store then holds for the class. *)
Lemma meta_call_returned cls a s o s' :
  meta_call cls a s = Returned o s' → store s' !! cls = Some o.
Proof.
  destruct (store s !! cls) as [o0|] eqn:Ho.
  - rewrite (meta_call_reuse _ _ _ o0) by done. by intros [= <- <-].
  - destruct (raises (__init__ cls a)) as [e|] eqn:Hi.
    + by rewrite (meta_call_fail _ _ _ e).
    + rewrite meta_call_create by done. intros [= <- <-].
      simpl. by rewrite lookup_insert_eq.
Qed.

(** A call never changes or removes an entry of the store. *)
Lemma meta_call_entry_stable cls a s k o :
  store s !! k = Some o →
  store (final_state (meta_call cls a s)) !! k = Some o.
Proof.
  intros Hk. destruct (store s !! cls) as [o0|] eqn:Ho.
  - by rewrite (meta_call_reuse _ _ _ o0).
  - destruct (raises (__init__ cls a)) as [e|] eqn:Hi.
    + by rewrite (meta_call_fail _ _ _ e).
    + rewrite meta_call_create by done. simpl.
      rewrite lookup_insert_ne; [done|]. congruence.
Qed.

Local Abbreviation announced := (announced __name__).

Lemma super_call_ok cls a s :
  raises (__init__ cls a) = None →
  super__call__ __init__ cls a (announced cls s)
  = Returned (length (heap s)) (constructed cls a s).
Proof.
  intros Hi. unfold super__call__, bind. simpl.
  rewrite run_body_ok by done. simpl.
  unfold SingletonMetaPy.constructed, after_effects. simpl.
  by rewrite <- !app_assoc.
Qed.

Lemma super_call_fail cls a s e :
  raises (__init__ cls a) = Some e →
  super__call__ __init__ cls a (announced cls s)
  = Raised e (constructed cls a s).
Proof.
  intros Hi. unfold super__call__, bind. simpl.
  rewrite (run_body_raises _ _ e) by done.
  unfold SingletonMetaPy.constructed, after_effects. simpl.
  by rewrite <- !app_assoc.
Qed.

(** A call raises exactly when it has to construct and the constructor
    raises; the exception and the state are the constructor's. *)
Lemma meta_call_raises_iff cls a s e s' :
  meta_call cls a s = Raised e s'
  ↔ store s !! cls = None
    ∧ super__call__ __init__ cls a (announced cls s) = Raised e s'.
Proof.
  destruct (store s !! cls) as [o|] eqn:Ho.
  - rewrite (meta_call_reuse _ _ _ o) by done. split; [done|by intros []].
  - destruct (raises (__init__ cls a)) as [e0|] eqn:Hi.
    + rewrite (meta_call_fail _ _ _ e0), (super_call_fail _ _ _ e0) by done.
      tauto.
    + rewrite meta_call_create, super_call_ok by done.
      split; [done|by intros []].
Qed.

Lemma meta_call_raised_store cls a s e s' :
  meta_call cls a s = Raised e s' →
  store s' = store s ∧ store s' !! cls = None.
Proof.
  destruct (store s !! cls) as [o|] eqn:Ho.
  - by rewrite (meta_call_reuse _ _ _ o).
  - destruct (raises (__init__ cls a)) as [e0|] eqn:Hi.
    + rewrite (meta_call_fail _ _ _ e0) by done. by intros [= <- <-].
    + by rewrite meta_call_create.
Qed.

(** Once a class has its instance, any calls of it return the instance
    and add a reuse notice each. *)
Lemma meta_run_calls_again cls (rest : list call_args) s o :
  store s !! cls = Some o →
  run_calls meta_call (map (pair cls) rest) s
  = (replicate (length rest) (inr o),
     State (store s) (heap s)
           (trace s ++ replicate (length rest) (Printed (reusing_msg __name__ cls)))).
Proof.
  revert s. induction rest as [|a rest IH]; intros s Ho; simpl.
  - by rewrite app_nil_r, state_eta.
  - rewrite (meta_call_reuse _ _ _ o Ho), IH by done. simpl.
    by rewrite <- app_assoc.
Qed.

(** *** Instances of distinct classes *)

Lemma class_of_lt s o k : class_of s o = Some k → o < length (heap s).
Proof.
  unfold class_of. destruct (heap s !! o) eqn:Ho; [|done].
  intros _. by eapply lookup_lt_Some.
Qed.

Lemma class_of_constructed cls a s o k :
  class_of s o = Some k → class_of (constructed cls a s) o = Some k.
Proof.
  intros Hc. pose proof (class_of_lt _ _ _ Hc) as Hlt.
  unfold SingletonMetaPy.constructed. rewrite class_of_after_effects.
  unfold class_of in *. simpl. by rewrite lookup_app_l.
Qed.

Lemma class_of_constructed_new cls a s :
  class_of (constructed cls a s) (length (heap s)) = Some cls.
Proof.
  unfold SingletonMetaPy.constructed. rewrite class_of_after_effects.
  unfold class_of. simpl. by rewrite lookup_last.
Qed.

Lemma meta_call_classes_ok cls a s :
  classes_ok s → classes_ok (final_state (meta_call cls a s)).
Proof.
  intros Hok. destruct (store s !! cls) as [o|] eqn:Ho.
  - rewrite (meta_call_reuse _ _ _ o Ho). exact Hok.
  - destruct (raises (__init__ cls a)) as [e|] eqn:Hi.
    + rewrite (meta_call_fail _ _ _ e) by done. intros k o Hk.
      apply class_of_constructed, Hok, Hk.
    + rewrite meta_call_create by done. intros k o. simpl.
      destruct (decide (cls = k)) as [->|Hne].
      * rewrite lookup_insert_eq. intros [= <-].
        apply class_of_constructed_new.
      * rewrite lookup_insert_ne by done. intros Hk.
        apply class_of_constructed, Hok, Hk.
Qed.

Lemma classes_ok_distinct s k1 k2 o1 o2 :
  classes_ok s → k1 ≠ k2 →
  store s !! k1 = Some o1 → store s !! k2 = Some o2 → o1 ≠ o2.
Proof.
  intros Hok Hne H1 H2 ->. apply Hok in H1, H2. congruence.
Qed.

Lemma meta_run_calls_fresh cls a (rest : list call_args) s :
  store s !! cls = None → raises (__init__ cls a) = None →
  run_calls meta_call ((cls, a) :: map (pair cls) rest) s
  = (replicate (S (length rest)) (inr (length (heap s))),
     State (store (recorded cls a s)) (heap (recorded cls a s))
           (trace (recorded cls a s)
            ++ replicate (length rest) (Printed (reusing_msg __name__ cls)))).
Proof.
  intros Ho Hi. simpl. rewrite meta_call_create by done.
  by rewrite (meta_run_calls_again _ _ _ (length (heap s)))
    by apply lookup_insert_eq.
Qed.

(** What a call of a run returned is what the store holds for its class
    at the end of the run. *)
Lemma meta_run_results (calls : list (K * call_args)) s i cls a o :
  calls !! i = Some (cls, a) →
  (run_calls meta_call calls s).1 !! i = Some (inr o) →
  store (run_calls meta_call calls s).2 !! cls = Some o.
Proof.
  revert s i. induction calls as [|[c a'] calls IH]; intros s i; [done|].
  destruct i as [|i]; simpl.
  - intros [= -> ->].
    destruct (meta_call cls a s) as [r s'|e s'] eqn:Hcall;
      destruct (run_calls meta_call calls s') as [rs s''] eqn:Hrun;
      simpl; [|done].
    intros [= ->]. apply meta_call_returned in Hcall.
    replace s'' with (run_calls meta_call calls s').2 by (by rewrite Hrun).
    apply (run_calls_invariant _ (λ s, store s !! cls = Some o)); [|done].
    intros c0 a0 s0. apply meta_call_entry_stable.
  - intros Hi Hr. specialize (IH (final_state (meta_call c a' s)) i Hi).
    destruct (meta_call c a' s) as [r s'|e s']; simpl in *;
      destruct (run_calls meta_call calls s') as [rs s'']; simpl in *;
      by apply IH.
Qed.

Lemma meta_run_classes_ok (calls : list (K * call_args)) :
  classes_ok (run_calls meta_call calls initial).2.
Proof.
  apply (run_calls_invariant _ classes_ok).
  - intros c a s. apply meta_call_classes_ok.
  - intros k o. simpl. by rewrite lookup_empty.
Qed.
End MetaFacts.

(** ** [MySingleton] and [test_singleton] *)

Section MySingletonFacts.
Import SingletonMetaPy Invariants.
Implicit Types (s : state meta_class) (o : loc) (a : call_args).

Lemma my_call_reuse a s o :
  store s !! MySingleton = Some o →
  call MySingleton a s = Returned o (reused MySingleton__name__ MySingleton s).
Proof. apply meta_call_reuse. Qed.

Lemma my_call_create a s :
  store s !! MySingleton = None → binds_to_self_only a = true →
  call MySingleton a s
  = Returned (length (heap s))
      (recorded MySingleton__name__ (λ _, MySingleton__init__)
         MySingleton a s).
Proof.
  intros Ho Ha. apply meta_call_create; [done|].
  unfold MySingleton__init__. by rewrite Ha.
Qed.

Lemma my_call_rejects_args a s :
  store s !! MySingleton = None → binds_to_self_only a = false →
  call MySingleton a s
  = Raised TypeError
      (constructed MySingleton__name__ (λ _, MySingleton__init__)
         MySingleton a s).
Proof.
  intros Ho Ha. apply meta_call_fail; [done|].
  unfold MySingleton__init__. by rewrite Ha.
Qed.

Lemma recorded_data a s :
  binds_to_self_only a = true →
  read_attr (recorded MySingleton__name__ (λ _, MySingleton__init__)
               MySingleton a s) (length (heap s)) "data"
  = Some (VStr "Some important shared data").
Proof.
  intros Ha. unfold read_attr. simpl.
  rewrite alter_last, lookup_last. simpl.
  unfold MySingleton__init__. rewrite Ha. simpl.
  by rewrite lookup_insert_eq.
Qed.

Lemma data_ok_call a s :
  data_ok s → data_ok (final_state (SingletonMetaPy.call MySingleton a s)).
Proof.
  intros Hd. destruct (store s !! MySingleton) as [o|] eqn:Ho.
  - rewrite (my_call_reuse _ _ o Ho). intros o'. simpl. apply Hd.
  - destruct (binds_to_self_only a) eqn:Ha.
    + rewrite (my_call_create _ _ Ho Ha). intros o'. simpl.
      rewrite lookup_insert_eq. intros [= <-]. by apply recorded_data.
    + rewrite (my_call_rejects_args _ _ Ho Ha). intros o'. simpl.
      by rewrite Ho.
Qed.

Lemma data_ok_after_calls cs : data_ok (SingletonMetaPy.after_calls cs).
Proof.
  apply (run_calls_invariant _ data_ok).
  - intros [] a s. apply data_ok_call.
  - intros o. simpl. by rewrite lookup_empty.
Qed.

Lemma my_call_no_args_data s :
  data_ok s →
  ∃ o s1, SingletonMetaPy.call MySingleton no_args s = Returned o s1
          ∧ store s1 !! MySingleton = Some o
          ∧ read_attr s1 o "data" = Some (VStr "Some important shared data").
Proof.
  intros Hd. destruct (store s !! MySingleton) as [o|] eqn:Ho.
  - exists o. eexists. split; [by apply my_call_reuse|]. split; [done|].
    apply (Hd o Ho).
  - eexists. eexists. split; [by apply my_call_create|]. split.
    + simpl. by rewrite lookup_insert_eq.
    + by apply recorded_data.
Qed.
Lemma my_call_no_args_cases s :
  ∃ o s1, SingletonMetaPy.call MySingleton no_args s = Returned o s1
          ∧ store s1 !! MySingleton = Some o
          ∧ (data_ok s →
             read_attr s1 o "data" = Some (VStr "Some important shared data")).
Proof.
  destruct (store s !! MySingleton) as [o|] eqn:Ho.
  - exists o. eexists. split; [by apply my_call_reuse|]. split; [done|].
    intros Hd. apply (Hd o Ho).
  - eexists. eexists. split; [by apply my_call_create|]. split.
    + simpl. by rewrite lookup_insert_eq.
    + intros _. by apply recorded_data.
Qed.

Lemma str_of_value_raises v e : str_of_value v = inl e → e = ValueError.
Proof.
  destruct v as [|b|n|t|o]; simpl; try done.
  destruct (bool_decide _); [done|]. by intros [= <-].
Qed.

(** [test_singleton()] gets the same object twice; it ends normally when
    that object has [data] that [str] converts, and otherwise with the
    exception of the conversion, or with an [AttributeError] when the
    object has no [data]. *)
Lemma test_singleton_runs s :
  ∃ o s1, store s1 !! MySingleton = Some o
    ∧ (Invariants.data_ok s →
       read_attr s1 o "data" = Some (VStr "Some important shared data"))
    ∧ ∃ s', test_singleton s
            = match read_attr s1 o "data" with
              | Some v =>
                  match str_of_value v with
                  | inr _ => Returned tt s'
                  | inl e => Raised e s'
                  end
              | None => Raised (AttributeError "data") s'
              end.
Proof.
  unfold test_singleton, bind. unfold print at 1. unfold log.
  set (s0 := State _ _ _).
  destruct (my_call_no_args_cases s0) as (o & s1 & H1 & Hst & Hd).
  exists o, s1. split; [done|]. split; [done|].
  rewrite H1, (my_call_reuse _ _ o Hst).
  unfold do_something, bind, getattr.
  replace (read_attr (reused MySingleton__name__ MySingleton s1) o "data")
    with (read_attr s1 o "data") by done.
  destruct (read_attr s1 o "data") as [v|] eqn:Hv; [|by eexists].
  destruct (str_of_value v) as [e|text] eqn:Hs; [by eexists|].
  simpl.
  match goal with
  | |- context [read_attr ?st o "data"] =>
      replace (read_attr st o "data") with (read_attr s1 o "data") by done
  end.
  rewrite Hv, Hs. simpl. rewrite bool_decide_eq_true_2 by done. simpl.
  by eexists.
Qed.
End MySingletonFacts.

(** ** The two files side by side *)

Section CompareFacts.
Import SingletonPy SingletonMetaPy Compare.
Variable __name__ : pyclass → string.
Variable __init__ : pyclass → call_args → body.
Implicit Types (sp sr : state pyclass) (cs : list pyclass) (c k : pyclass).

Local Abbreviation meta_call := (SingletonMeta__call__ __name__ __init__).

Lemma same_pattern_wrapped {A B} (f : A → B) (rs : list (exn + A)) :
  Inj (=) (=) f →
  same_pattern (map (sum_map id f) rs) rs.
Proof.
  intros Hf. split; [by rewrite length_map|]. split.
  - intros i r1 r2 H1 H2. rewrite list_lookup_fmap, H2 in H1.
    injection H1 as <-. by destruct r2.
  - intros i j a1 a2 b1 b2 H1 H2 H3 H4.
    rewrite list_lookup_fmap, H3 in H1. rewrite list_lookup_fmap, H4 in H2.
    simpl in *. injection H1 as <-. injection H2 as <-.
    split; [apply Hf|congruence].
Qed.

Lemma completed_other logic cls s o' n :
  o' < length (heap s) →
  class_of (init_completed logic (length (heap s)) (created cls s)) o'
  = class_of s o'
  ∧ read_attr (init_completed logic (length (heap s)) (created cls s)) o' n
    = read_attr s o' n.
Proof.
  intros Hlt.
  unfold class_of, read_attr, init_completed, init_logic_done,
    after_effects, created. simpl.
  rewrite !list_lookup_alter_ne by lia. by rewrite lookup_app_l.
Qed.

Lemma length_heap_completed logic cls s :
  length (heap (init_completed logic (length (heap s)) (created cls s)))
  = S (length (heap s)).
Proof.
  unfold init_completed, init_logic_done, after_effects, created. simpl.
  rewrite !length_alter, length_app. simpl. lia.
Qed.

Lemma length_heap_recorded cls a sr :
  length (heap (recorded __name__ __init__ cls a sr)) = S (length (heap sr)).
Proof.
  unfold recorded, constructed, after_effects. simpl.
  rewrite length_alter, length_app. simpl. lia.
Qed.

(** Among unrelated classes, [c._instance] is the binding of [c] itself. *)
Lemma agree_instance cs sp sr c :
  unrelated cs → c ∈ cs → agree cs sp sr →
  _instance (store sp) c = store sp !! c.
Proof.
  intros Hun Hc (_ & _ & Hst).
  destruct (_instance (store sp) c) as [o|] eqn:Ho.
  - destruct (instance_origin _ _ _ Ho) as (c' & Hc' & Hb).
    destruct (Hst c' o Hb) as (Hin & _).
    by rewrite <- (Hun c' c Hin Hc Hc').
  - symmetry. by apply instance_None_own.
Qed.

(** One call without arguments, made in both. *)
Lemma agree_step cs sp sr c :
  unrelated cs → c ∈ cs → raises (__init__ c no_args) = None →
  agree cs sp sr →
  ∃ o sp' sr',
    SingletonPy.call c no_args sp = Returned (Some o) sp'
    ∧ meta_call c no_args sr = Returned o sr'
    ∧ agree cs sp' sr'.
Proof.
  intros Hun Hc Hi Hag.
  pose proof (agree_instance _ _ _ _ Hun Hc Hag) as Hinst.
  destruct Hag as (Hst & Hlen & Hobj).
  destruct (store sp !! c) as [o|] eqn:Ho.
  - destruct (Hobj c o Ho) as (_ & Hcl & Hfl).
    exists o, sp. eexists. split; [|split].
    + by apply call_again.
    + apply meta_call_reuse. by rewrite <- Hst.
    + done.
  - exists (length (heap sp)). eexists. eexists. split; [|split].
    + by apply call_first.
    + rewrite Hlen. apply meta_call_create; [by rewrite <- Hst|done].
    + split; [|split].
      * simpl. by rewrite Hst, Hlen.
      * by rewrite length_heap_completed, length_heap_recorded, Hlen.
      * intros k o'. simpl.
        destruct (decide (c = k)) as [<-|Hne].
        -- rewrite lookup_insert_eq. intros [= <-]. split; [done|].
           destruct (completed_ready source_logic c sp) as (_ & ? & ?).
           done.
        -- rewrite lookup_insert_ne by done. intros Hk.
           destruct (Hobj k o' Hk) as (Hin & Hcl & Hfl).
           split; [done|].
           assert (Hlt : o' < length (heap sp)).
           { unfold class_of in Hcl.
             destruct (heap sp !! o') eqn:E; [|done].
             by eapply lookup_lt_Some. }
           destruct (completed_other source_logic c sp o' "_initialized" Hlt)
             as [-> ->].
           done.
Qed.

(** Any calls without arguments, made in both. *)
Lemma agree_run all cs sp sr :
  unrelated all → cs ⊆ all →
  (∀ c, c ∈ cs → raises (__init__ c no_args) = None) →
  agree all sp sr →
  ∃ os sp' sr',
    run_calls SingletonPy.call (calls_of cs) sp
    = (map (λ o, inr (Some o)) os, sp')
    ∧ run_calls meta_call (calls_of cs) sr = (map inr os, sr')
    ∧ agree all sp' sr'.
Proof.
  intros Hun. revert sp sr.
  induction cs as [|c cs IH]; intros sp sr Hsub Hi Hag.
  - exists [], sp, sr. by simpl.
  - destruct (agree_step all sp sr c) as (o & sp1 & sr1 & Hp & Hr & Hag1);
      [done|apply Hsub, list_elem_of_here
      |apply Hi, list_elem_of_here|done|].
    destruct (IH sp1 sr1) as (os & sp' & sr' & Hps & Hrs & Hag');
      [intros x Hx; by apply Hsub, list_elem_of_further
      |intros x Hx; by apply Hi, list_elem_of_further|done|].
    exists (o :: os), sp', sr'. simpl.
    by rewrite Hp, Hr, Hps, Hrs.
Qed.

Lemma agree_initial all : agree all initial initial.
Proof.
  split; [done|]. split; [done|]. intros k o. simpl.
  by rewrite lookup_empty.
Qed.
End CompareFacts.

(** ** The claims *)

Import SingletonPy SingletonMetaPy.

(** C1. Two successive acquisitions of a type identifier return the same
    object. In [singleton.py], after any calls whatever, two successive
    calls [cls()] both return, and return the same object; whatever the
    arguments and the one-time logic, two successive calls of [cls] that
    return return the same object. In [singleton_meta.py], two successive
    calls [MySingleton()] both return, in any state, and return the same
    object; and for any class declared with the metaclass, once a call has
    returned an object the next call of that class, with any arguments,
    returns that object too. *)
Theorem C1_successive_acquisitions_same_object :
  (∀ cs cls, ∃ o s1 s2,
     SingletonPy.call cls no_args (SingletonPy.after_calls cs) = Returned (Some o) s1
     ∧ SingletonPy.call cls no_args s1 = Returned (Some o) s2)
  ∧ (∀ logic cls a1 a2 s r1 s1 r2 s2,
       type__call__ logic cls a1 s = Returned r1 s1 →
       type__call__ logic cls a2 s1 = Returned r2 s2 →
       r1 = r2 ∧ is_Some r1)
  ∧ (∀ s, ∃ o s1 s2,
       SingletonMetaPy.call MySingleton no_args s = Returned o s1
       ∧ SingletonMetaPy.call MySingleton no_args s1 = Returned o s2)
  ∧ (∀ (K : Type) `(Countable K) (name : K → string)
       (init : K → call_args → body) cls a1 a2 (s : state K) o s1,
       SingletonMeta__call__ name init cls a1 s = Returned o s1 →
       ∃ s2, SingletonMeta__call__ name init cls a2 s1 = Returned o s2).
Proof.
  split; [|split; [|split]].
  - intros cs cls.
    destruct (call_no_args_returns cls (SingletonPy.after_calls cs)) as (o & s1 & H1);
      [apply after_calls_store_ok|].
    assert (Hok1 : store_ok s1).
    { pose proof (call_store_ok source_logic cls no_args (SingletonPy.after_calls cs)
                    (after_calls_store_ok cs)) as Hok.
      unfold SingletonPy.call in H1. by rewrite H1 in Hok. }
    destruct (call_no_args_returns cls s1 Hok1) as (o' & s2 & H2).
    destruct (call_returned _ _ _ _ _ _ H1) as (o1 & [= <-] & Hst).
    apply (call_reuse_same _ _ _ _ o) in H2 as Heq; [|done].
    injection Heq as ->. by exists o, s1, s2.
  - intros logic cls a1 a2 s r1 s1 r2 s2 H1 H2.
    destruct (call_returned _ _ _ _ _ _ H1) as (o1 & -> & Hst).
    apply (call_reuse_same _ _ _ _ o1) in H2; [|done].
    split; [done|by eexists].
  - intros s.
    assert (Hret : ∀ s0, ∃ o s', SingletonMetaPy.call MySingleton no_args s0
                                 = Returned o s').
    { intros s0. unfold SingletonMetaPy.call.
      destruct (store s0 !! MySingleton) as [o|] eqn:Ho.
      - rewrite (meta_call_reuse _ _ _ _ _ o) by done. eauto.
      - rewrite meta_call_create by done. eauto. }
    destruct (Hret s) as (o & s1 & H1). exists o, s1.
    apply meta_call_returned in H1 as Hst.
    unfold SingletonMetaPy.call.
    rewrite (meta_call_reuse _ _ _ _ _ o Hst). eauto.
  - intros K ? ? name init cls a1 a2 s o s1 H1.
    apply meta_call_returned in H1.
    rewrite (meta_call_reuse _ _ _ _ _ o H1). eauto.
Qed.

(** After [MySingleton()], a call with an argument returns the same object. *)
Lemma C1_witness :
  ∃ s2, SingletonMeta__call__ MySingleton__name__ (λ _, MySingleton__init__)
          MySingleton (CallArgs [VInt 7] [])
          (final_state (SingletonMetaPy.call MySingleton no_args initial))
        = Returned 0 s2.
Proof.
  destruct C1_successive_acquisitions_same_object as (_ & _ & _ & Hmeta).
  eapply (Hmeta _ _ _ MySingleton__name__ (λ _, MySingleton__init__)
            MySingleton no_args (CallArgs [VInt 7] []) initial 0).
  vm_compute. reflexivity.
Defined.




(** C3. In [singleton.py] two distinct classes can share an instance:
    after [Singleton()], a class [Sub] derived from [Singleton] gets the
    instance of [Singleton] from [Sub()]; in general, after any calls
    whatever, a class derived from one whose [_instance] holds an
    instance, and that has no binding of its own, is given that instance.
    Only through this inherited read do classes share: the objects bound
    in the namespaces of distinct classes are distinct. In
    [singleton_meta.py] the instances recorded for distinct classes are
    distinct objects, after any calls whatever. *)
Theorem C3_derived_class_shares_base_instance :
  (run_calls SingletonPy.call
     [(Singleton, no_args); (Derived "Sub" Singleton, no_args)] initial).1
  = [inr (Some 0); inr (Some 0)]
  ∧ (∀ cs name base a o,
       _instance (store (SingletonPy.after_calls cs)) base = Some o →
       store (SingletonPy.after_calls cs) !! Derived name base = None →
       SingletonPy.call (Derived name base) a (SingletonPy.after_calls cs)
       = Returned (Some o) (SingletonPy.after_calls cs))
  ∧ (∀ cs k1 k2 o1 o2,
       k1 ≠ k2 →
       store (SingletonPy.after_calls cs) !! k1 = Some o1 →
       store (SingletonPy.after_calls cs) !! k2 = Some o2 →
       o1 ≠ o2)
  ∧ (∀ (K : Type) `(Countable K) (name : K → string)
       (init : K → call_args → body) cs k1 k2 o1 o2,
       k1 ≠ k2 →
       store (run_calls (SingletonMeta__call__ name init) cs initial).2 !! k1
       = Some o1 →
       store (run_calls (SingletonMeta__call__ name init) cs initial).2 !! k2
       = Some o2 →
       o1 ≠ o2).
Proof.
  split; [vm_compute; reflexivity|]. split; [|split].
  - intros cs name base a o. apply call_derived_shares.
    apply after_calls_store_ok.
  - intros cs k1 k2 o1 o2 Hne H1 H2 ->.
    apply (store_ok_class _ _ _ (after_calls_store_ok cs)) in H1, H2.
    congruence.
  - intros K ? ? name init cs k1 k2 o1 o2.
    apply classes_ok_distinct.
    apply (run_calls_invariant _ classes_ok).
    + intros c a s. apply meta_call_classes_ok.
    + intros k o. simpl. by rewrite lookup_empty.
Qed.

(** After [Singleton()], [Sub(1)] returns the instance of [Singleton]. *)
Lemma C3_witness :
  SingletonPy.call (Derived "Sub" Singleton) (CallArgs [VInt 1] [])
    (SingletonPy.after_calls [(Singleton, no_args)])
  = Returned (Some 0) (SingletonPy.after_calls [(Singleton, no_args)]).
Proof.
  destruct C3_derived_class_shares_base_instance as (_ & Hshare & _).
  apply (Hshare [(Singleton, no_args)] "Sub" Singleton).
  - vm_compute. reflexivity.
  - vm_compute. reflexivity.
Defined.

(** C4. The store only grows: whatever calls are made, with whatever
    arguments, from whatever state, an instance recorded for a type
    identifier stays recorded for it, the same object, so no second
    instance is ever recorded for it and none is removed. In
    [singleton.py] this holds of the value of [k._instance] and of the
    binding in the namespace of [k]; in [singleton_meta.py] of the entry
    of [_instances]. The methods of the instances leave the store as it
    is. *)
Theorem C4_recorded_instance_never_replaced :
  (∀ logic cs s k o,
     _instance (store s) k = Some o →
     _instance (store (run_calls (type__call__ logic) cs s).2) k = Some o)
  ∧ (∀ logic cs s k o,
       store s !! k = Some o →
       store (run_calls (type__call__ logic) cs s).2 !! k = Some o)
  ∧ (∀ (K : Type) `(Countable K) (name : K → string)
       (init : K → call_args → body) cs (s : state K) k o,
       store s !! k = Some o →
       store (run_calls (SingletonMeta__call__ name init) cs s).2 !! k
       = Some o)
  ∧ (∀ o s, store (final_state (some_business_logic o s)) = store s)
  ∧ (∀ o s, store (final_state (do_something o s)) = store s).
Proof.
  split; [|split; [|split; [|split]]].
  - intros logic cs s k o.
    apply (run_calls_invariant _ (λ s, _instance (store s) k = Some o)).
    intros c a s'. apply call_instance_stable.
  - intros logic cs s k o.
    apply (run_calls_invariant _ (λ s, store s !! k = Some o)).
    intros c a s'. apply call_binding_stable.
  - intros K ? ? name init cs s k o.
    apply (run_calls_invariant _ (λ s, store s !! k = Some o)).
    intros c a s'. apply meta_call_entry_stable.
  - done.
  - intros o s. unfold do_something, bind, getattr.
    destruct (read_attr s o "data") as [v|]; [|done].
    by destruct (str_of_value v).
Qed.

(** The binding of [Singleton] survives a failing call and other calls. *)
Lemma C4_witness :
  store (run_calls SingletonPy.call
           [(Singleton, CallArgs [VInt 1] []); (Derived "Sub" Singleton, no_args);
            (Singleton, no_args)]
           (SingletonPy.after_calls [(Singleton, no_args)])).2 !! Singleton
  = Some 0.
Proof.
  destruct C4_recorded_instance_never_replaced as (_ & Hown & _).
  apply Hown. vm_compute. reflexivity.
Defined.

(** C5, as stated, fails: the two files do not show the same pattern on
    every sequence of calls. After a first call without arguments, a call
    passing an argument raises in [singleton.py] and returns the instance
    in [singleton_meta.py]. *)
Lemma C5_counterexample :
  ¬ Compare.same_pattern
      (run_calls SingletonPy.call
         [(Singleton, no_args); (Singleton, CallArgs [VInt 1] [])] initial).1
      (run_calls SingletonMetaPy.call
         [(MySingleton, no_args); (MySingleton, CallArgs [VInt 1] [])]
         initial).1.
Proof.
  intros (_ & Hret & _).
  specialize (Hret 1 (inl TypeError) (inr 0)).
  assert (Hfalse : Compare.returned (inl TypeError : exn + option nat)
                   = Compare.returned (inr 0 : exn + nat)).
  { apply Hret; vm_compute; reflexivity. }
  discriminate Hfalse.
Qed.

(** C5, amended. On calls without arguments the two files show the same
    pattern of object identities. Any number of calls [Singleton()] and
    as many calls [MySingleton()], from a fresh process, all return, each
    file its one object. More generally, for classes none of which
    derives from another, calls without arguments made in [singleton.py]
    and the same calls made through the metaclass, the constructors
    returning, all return, the same objects in both, and two calls return
    the same object exactly when they are calls of the same class. *)
Theorem C5_same_pattern_without_arguments :
  (∀ n,
     (run_calls SingletonPy.call (replicate n (Singleton, no_args)) initial).1
     = replicate n (inr (Some 0))
     ∧ (run_calls SingletonMetaPy.call (replicate n (MySingleton, no_args))
          initial).1
       = replicate n (inr 0)
     ∧ Compare.same_pattern
         (run_calls SingletonPy.call (replicate n (Singleton, no_args))
            initial).1
         (run_calls SingletonMetaPy.call (replicate n (MySingleton, no_args))
            initial).1)
  ∧ (∀ (name : pyclass → string) (init : pyclass → call_args → body) cs,
       Compare.unrelated cs →
       (∀ c, c ∈ cs → raises (init c no_args) = None) →
       ∃ os,
         (run_calls SingletonPy.call (Compare.calls_of cs) initial).1
         = map (λ o, inr (Some o)) os
         ∧ (run_calls (SingletonMeta__call__ name init) (Compare.calls_of cs)
              initial).1
           = map inr os
         ∧ Compare.same_pattern
             (run_calls SingletonPy.call (Compare.calls_of cs) initial).1
             (run_calls (SingletonMeta__call__ name init)
                (Compare.calls_of cs) initial).1
         ∧ (∀ i j ci cj oi oj,
              cs !! i = Some ci → cs !! j = Some cj →
              os !! i = Some oi → os !! j = Some oj →
              (oi = oj ↔ ci = cj))).
Proof.
  split.
  - intros n.
    assert (Hp : (run_calls SingletonPy.call
                    (replicate n (Singleton, no_args)) initial).1
                 = replicate n (inr (Some 0))).
    { destruct n as [|n]; [done|].
      change (replicate (S n) (Singleton, no_args))
        with ((Singleton, no_args) :: replicate n (Singleton, no_args)).
      rewrite <- (fmap_replicate (pair Singleton) n no_args).
      rewrite run_calls_fresh by done. simpl.
      by rewrite later_result_no_args. }
    assert (Hr : (run_calls SingletonMetaPy.call
                    (replicate n (MySingleton, no_args)) initial).1
                 = replicate n (inr 0)).
    { destruct n as [|n]; [done|].
      change (replicate (S n) (MySingleton, no_args))
        with ((MySingleton, no_args) :: replicate n (MySingleton, no_args)).
      rewrite <- (fmap_replicate (pair MySingleton) n no_args).
      unfold SingletonMetaPy.call.
      rewrite (meta_run_calls_fresh _ _ MySingleton no_args) by done.
      simpl. by rewrite length_replicate. }
    split; [done|]. split; [done|]. rewrite Hp, Hr.
    replace (replicate n (inr (Some 0) : exn + option nat))
      with (map (sum_map id Some) (replicate n (inr 0 : exn + nat))).
    + apply same_pattern_wrapped. by intros ?? [=].
    + by rewrite (fmap_replicate (sum_map id Some) n (inr 0)).
  - intros name init cs Hun Hi.
    destruct (agree_run name init cs cs initial initial Hun)
      as (os & sp' & sr' & Hp & Hr & _);
      [done|done|apply agree_initial|].
    exists os. rewrite Hp. simpl.
    assert (Hrs : (run_calls (SingletonMeta__call__ name init)
                     (Compare.calls_of cs) initial).1 = map inr os)
      by (by rewrite Hr).
    split; [done|]. split; [done|]. split.
    + rewrite Hrs.
      replace (map (λ o, inr (Some o)) os)
        with (map (sum_map id Some) (map (inr : nat → exn + nat) os)).
      * apply same_pattern_wrapped. by intros ?? [=].
      * rewrite map_map. done.
    + intros i j ci cj oi oj Hci Hcj Hoi Hoj.
      assert (Hst : ∀ k c o, cs !! k = Some c → os !! k = Some o →
                store (run_calls (SingletonMeta__call__ name init)
                         (Compare.calls_of cs) initial).2 !! c = Some o).
      { intros k c o Hc Ho.
        apply (meta_run_results _ _ _ _ k c no_args).
        - unfold Compare.calls_of. by rewrite list_lookup_fmap, Hc.
        - by rewrite Hrs, list_lookup_fmap, Ho. }
      pose proof (Hst i ci oi Hci Hoi) as Hsi.
      pose proof (Hst j cj oj Hcj Hoj) as Hsj.
      split.
      * intros ->. destruct (decide (ci = cj)) as [|Hne]; [done|].
        by destruct (classes_ok_distinct _ _ _ _ _
                       (meta_run_classes_ok name init _) Hne Hsi Hsj).
      * intros ->. congruence.
Qed.

(** Two classes derived from [Singleton], called in turn in both files. *)
Lemma C5_witness :
  ∃ os,
    (run_calls SingletonPy.call
       (Compare.calls_of [Derived "A" Singleton; Derived "B" Singleton;
                          Derived "A" Singleton]) initial).1
    = map (λ o, inr (Some o)) os
    ∧ (run_calls (SingletonMeta__call__ (λ _, "C") (λ _, MySingleton__init__))
         (Compare.calls_of [Derived "A" Singleton; Derived "B" Singleton;
                            Derived "A" Singleton]) initial).1
      = map inr os
    ∧ Compare.same_pattern
        (run_calls SingletonPy.call
           (Compare.calls_of [Derived "A" Singleton; Derived "B" Singleton;
                              Derived "A" Singleton]) initial).1
        (run_calls (SingletonMeta__call__ (λ _, "C") (λ _, MySingleton__init__))
           (Compare.calls_of [Derived "A" Singleton; Derived "B" Singleton;
                              Derived "A" Singleton]) initial).1
    ∧ (∀ i j ci cj oi oj,
         [Derived "A" Singleton; Derived "B" Singleton; Derived "A" Singleton]
           !! i = Some ci →
         [Derived "A" Singleton; Derived "B" Singleton; Derived "A" Singleton]
           !! j = Some cj →
         os !! i = Some oi → os !! j = Some oj →
         (oi = oj ↔ ci = cj)).
Proof.
  destruct C5_same_pattern_without_arguments as (_ & Hgen).
  apply (Hgen (λ _, "C") (λ _, MySingleton__init__)
           [Derived "A" Singleton; Derived "B" Singleton; Derived "A" Singleton]).
  - intros c1 c2 H1 H2 Hm.
    repeat (apply elem_of_cons in H1 as [->|H1]);
      repeat (apply elem_of_cons in H2 as [->|H2]);
      try done; try (by apply elem_of_nil in H1);
      try (by apply elem_of_nil in H2);
      simpl in Hm;
      repeat (apply elem_of_cons in Hm as [Hm|Hm]; [done|]);
      by apply elem_of_nil in Hm.
  - intros c _. reflexivity.
Defined.









(** C9. The identity assertion of [test_singleton] never fires: run from
    a fresh process, and after any calls of [MySingleton] whatever, it
    ends normally; and in no state at all does it end with an
    [AssertionError]. *)
Theorem C9_test_singleton_assertion_holds :
  (∃ s', test_singleton initial = Returned tt s')
  ∧ (∀ cs, ∃ s', test_singleton (SingletonMetaPy.after_calls cs)
                 = Returned tt s')
  ∧ (∀ s msg s', test_singleton s ≠ Raised (AssertionError msg) s').
Proof.
  split; [|split].
  - eexists. vm_compute. reflexivity.
  - intros cs.
    destruct (test_singleton_runs (SingletonMetaPy.after_calls cs))
      as (o & s1 & _ & Hd & Hrun).
    rewrite (Hd (data_ok_after_calls cs)) in Hrun.
    exact Hrun.
  - intros s msg s' Hr.
    destruct (test_singleton_runs s) as (o & s1 & _ & _ & Hrun).
    destruct Hrun as [s2 Hrun].
    destruct (read_attr s1 o "data") as [v|]; [|congruence].
    destruct (str_of_value v) as [e|text] eqn:Hs; [|congruence].
    apply str_of_value_raises in Hs. congruence.
Qed.

(** C10. In [singleton.py] the object is recorded before it is initialized.
    When [cls._instance] is [None], [__new__] binds the new object in the
    namespace of [cls] and clears its flag [_initialized]; the flag is still
    cleared when the one-time logic has run and is set only by the
    assignment after it. So when the logic raises, the call raises with
    the object recorded and its flag cleared, the store is not as it was,
    and a later call gets the same object from [__new__] and runs the
    one-time logic on it again, under the initialization notice. The logic
    is any that does not itself assign [_initialized]. *)
Theorem C10_instance_recorded_before_initialization :
  ∀ logic cls s,
    _instance (store s) cls = None →
    leaves_flag logic = true →
    let o := length (heap s) in
    let s0 := created cls s in
    (∀ a, Singleton__new__ cls a s = Returned (Some o) s0)
    ∧ store s0 !! cls = Some o
    ∧ read_attr s0 o "_initialized" = Some (VBool false)
    ∧ read_attr (init_logic_done logic o s0) o "_initialized"
      = Some (VBool false)
    ∧ read_attr (init_completed logic o s0) o "_initialized"
      = Some (VBool true)
    ∧ (raises logic = None →
       type__call__ logic cls no_args s
       = Returned (Some o) (init_completed logic o s0))
    ∧ (∀ e, raises logic = Some e →
         let s1 := init_logic_done logic o s0 in
         type__call__ logic cls no_args s = Raised e s1
         ∧ store s1 !! cls = Some o
         ∧ store s1 ≠ store s
         ∧ (∀ a, Singleton__new__ cls a s1 = Returned (Some o) s1)
         ∧ (∀ logic2,
              type__call__ logic2 cls no_args s1
              = match raises logic2 with
                | None => Returned (Some o) (init_completed logic2 o s1)
                | Some e2 => Raised e2 (init_logic_done logic2 o s1)
                end)
         ∧ (∀ logic2,
              trace (init_logic_done logic2 o s1)
              = trace s1 ++ Printed initializing_msg
                            :: map (event_of o) (effects logic2))).
Proof.
  intros logic cls s Hnone Hflag o s0.
  assert (Hst0 : store s0 !! cls = Some o) by apply lookup_insert_eq.
  assert (Hf0 : read_attr s0 o "_initialized" = Some (VBool false))
    by apply read_flag_created.
  assert (Hf1 : read_attr (init_logic_done logic o s0) o "_initialized"
                = Some (VBool false)).
  { by rewrite read_flag_logic_done. }
  split; [intros a; by apply new_create|].
  split; [done|]. split; [done|]. split; [done|].
  split.
  { apply read_flag_completed. unfold s0, created, o. simpl.
    rewrite lookup_last. by eexists. }
  split.
  { intros Hl. rewrite call_first_logic by done. by rewrite Hl. }
  intros e He s1.
  assert (Hst1 : store s1 !! cls = Some o) by done.
  assert (Hi1 : _instance (store s1) cls = Some o)
    by (by apply instance_own).
  split; [rewrite call_first_logic by done; by rewrite He|].
  split; [done|].
  split.
  { intros Heq. apply instance_None_own in Hnone. congruence. }
  split; [intros a; by apply new_reuse|].
  split.
  - intros logic2. apply (call_uninitialized _ _ _ _ (VBool false));
      [done| |done|done].
    unfold s1. rewrite class_of_logic_done. apply class_of_created.
  - intros logic2. unfold init_logic_done, after_effects, init_started.
    simpl. by rewrite <- !app_assoc.
Qed.

(** A one-time logic that assigns the data field and then fails. *)
Lemma C10_witness :
  type__call__ (Body [SetAttr "some_data" (VStr "Important data")]
                     (Some (OtherError "disk full")))
               Singleton no_args initial
  = Raised (OtherError "disk full")
      (init_logic_done (Body [SetAttr "some_data" (VStr "Important data")]
                             (Some (OtherError "disk full")))
         0 (created Singleton initial)).
Proof.
  destruct (C10_instance_recorded_before_initialization
              (Body [SetAttr "some_data" (VStr "Important data")]
                    (Some (OtherError "disk full")))
              Singleton initial eq_refl eq_refl)
    as (_ & _ & _ & _ & _ & _ & Hraise).
  destruct (Hraise (OtherError "disk full") eq_refl) as (Hcall & _).
  exact Hcall.
Defined.

(** * Further properties *)

(** ** [singleton.py] *)

Section SingletonMore.
Import SingletonPy Invariants.
Implicit Types (s : state pyclass) (o : loc) (cls k : pyclass)
               (a : call_args) (logic : body).

Lemma read_attr_frame {C} `{Countable C} (s s' : state C) o n :
  heap s' !! o = heap s !! o → read_attr s' o n = read_attr s o n.
Proof. unfold read_attr. by intros ->. Qed.

Lemma class_of_frame {C} `{Countable C} (s s' : state C) o :
  heap s' !! o = heap s !! o → class_of s' o = class_of s o.
Proof. unfold class_of. by intros ->. Qed.

Lemma created_frame cls s o' :
  o' < length (heap s) → heap (created cls s) !! o' = heap s !! o'.
Proof. intros Hlt. unfold created. simpl. by rewrite lookup_app_l. Qed.

Lemma completed_frame logic o s o' :
  o' ≠ o → heap (init_completed logic o s) !! o' = heap s !! o'.
Proof.
  intros Hne. unfold init_completed, init_logic_done, after_effects. simpl.
  by rewrite !list_lookup_alter_ne.
Qed.

Lemma class_of_completed logic o s o' :
  class_of (init_completed logic o s) o' = class_of s o'.
Proof.
  destruct (decide (o' = o)) as [->|Hne].
  - unfold class_of, init_completed, init_logic_done, after_effects. simpl.
    rewrite !list_lookup_alter_eq. by destruct (heap s !! o).
  - by apply class_of_frame, completed_frame.
Qed.

Lemma read_data_completed o s :
  is_Some (heap s !! o) →
  read_attr (init_completed source_logic o s) o "some_data"
  = Some (VStr "Important data").
Proof.
  intros [ob Hob].
  unfold read_attr, init_completed, init_logic_done, after_effects. simpl.
  rewrite !list_lookup_alter_eq, Hob. simpl.
  by rewrite lookup_insert_ne, lookup_insert_eq.
Qed.

Lemma read_data_created cls s :
  read_attr (created cls s) (length (heap s)) "some_data" = None.
Proof.
  unfold read_attr, created. simpl. rewrite lookup_last. simpl.
  by rewrite lookup_insert_ne, lookup_empty.
Qed.

Lemma init_frame logic o a s o' :
  o' ≠ o →
  heap (final_state (Singleton__init__ logic o a s)) !! o' = heap s !! o'.
Proof.
  intros Hne. destruct (init_final logic o a s) as (_ & (f & _ & ->) & _).
  by rewrite list_lookup_alter_ne.
Qed.

Lemma store_ok_lt s k o : store_ok s → store s !! k = Some o → o < length (heap s).
Proof.
  intros Hok Hk. destruct (Hok k o Hk) as (ob & Hob & _).
  by eapply lookup_lt_Some.
Qed.

Lemma derived_not_in_mro n b : Derived n b ∉ mro b.
Proof. intros Hin. apply mro_length in Hin. simpl in Hin. lia. Qed.

Lemma derived_ne n b : b ≠ Derived n b.
Proof.
  intros Heq. pose proof (derived_not_in_mro n b) as Hn.
  rewrite <- Heq in Hn at 1. apply Hn, mro_self.
Qed.

(** Binding [cls._instance] does not change what a class that does not
    derive from [cls] reads. *)
Lemma instance_insert_other st cls o k :
  cls ∉ mro k → _instance (<[cls := o]> st) k = _instance st k.
Proof.
  induction k as [|n b IH]; simpl; intros Hn.
  - rewrite lookup_insert_ne; [done|]. intros ->. apply Hn, list_elem_of_here.
  - rewrite lookup_insert_ne.
    + destruct (st !! Derived n b); [done|]. apply IH.
      intros Hin. apply Hn. by apply list_elem_of_further.
    + intros ->. apply Hn, list_elem_of_here.
Qed.

(** After an argument-less call that returned, the same call again
    returns the same and leaves the state as it is. *)
Lemma call_no_args_settled cls s r s1 :
  store_ok s →
  SingletonPy.call cls no_args s = Returned r s1 →
  SingletonPy.call cls no_args s1 = Returned r s1.
Proof.
  intros Hok. unfold SingletonPy.call.
  destruct (_instance (store s) cls) as [o|] eqn:Ho.
  - rewrite (call_reuse _ _ _ _ o Ho).
    destruct (instance_origin _ _ _ Ho) as (c & Hc & Hst).
    destruct (Hok c o Hst) as (ob & Hob & Hcl & [v Hv]).
    assert (Hco : class_of s o = Some c).
    { unfold class_of. rewrite Hob. simpl. by rewrite Hcl. }
    assert (Hf : read_attr s o "_initialized" = Some v).
    { unfold read_attr. by rewrite Hob. }
    rewrite Hco. destruct (issubclass c cls) eqn:Hsub.
    + destruct (truthy v) eqn:Htv.
      * rewrite (init_skips _ _ _ _ v) by done. intros [= <- <-].
        rewrite (call_reuse _ _ _ _ o Ho), Hco, Hsub.
        by rewrite (init_skips _ _ _ _ v).
      * rewrite (init_runs _ _ _ _ v) by done. intros [= <- <-].
        rewrite (call_reuse _ _ _ _ o) by done.
        rewrite class_of_completed, Hco, Hsub.
        rewrite (init_skips _ _ _ _ (VBool true)); [done|done| |done].
        apply read_flag_completed. by eexists.
    + intros [= <- <-]. by rewrite (call_reuse _ _ _ _ o Ho), Hco, Hsub.
  - rewrite (call_create _ _ _ _ Ho).
    rewrite (init_runs _ _ _ _ (VBool false));
      [|done|apply read_flag_created|done|done].
    intros [= <- <-].
    destruct (completed_ready source_logic cls s) as (Hi & Hc & Hf).
    by apply call_again.
Qed.

(** The stored instances stay as [flag_ok] says, through any call. *)
Lemma call_flag_ok cls a s :
  store_ok s → flag_ok s →
  flag_ok (final_state (SingletonPy.call cls a s)).
Proof.
  intros Hok Hfl. unfold SingletonPy.call.
  destruct (_instance (store s) cls) as [o|] eqn:Ho.
  - rewrite (call_reuse _ _ _ _ o Ho).
    destruct (instance_origin _ _ _ Ho) as (c & Hc & Hst).
    rewrite (store_ok_class _ _ _ Hok Hst).
    destruct (issubclass c cls); [|done].
    destruct (binds_to_self_only a) eqn:Ha; [|by rewrite init_rejects_args].
    destruct (Hfl c o Hst) as [[Hf Hd]|[Hf Hd]].
    + rewrite (init_runs _ _ _ _ (VBool false)) by done.
      intros k o' Hk. simpl in Hk.
      destruct (decide (o' = o)) as [->|Hne].
      * right. split.
        -- apply read_flag_completed.
           destruct (Hok c o Hst) as (ob & Hob & _). by eexists.
        -- apply read_data_completed.
           destruct (Hok c o Hst) as (ob & Hob & _). by eexists.
      * rewrite !(read_attr_frame s (init_completed source_logic o s))
          by (by apply completed_frame).
        by apply (Hfl k).
    + by rewrite (init_skips _ _ _ _ (VBool true)).
  - rewrite (call_create _ _ _ _ Ho).
    assert (Hold : ∀ k o', k ≠ cls → store s !! k = Some o' →
              heap (created cls s) !! o' = heap s !! o').
    { intros k o' _ Hk. apply created_frame. by eapply store_ok_lt. }
    destruct (binds_to_self_only a) eqn:Ha.
    + rewrite (init_runs _ _ _ _ (VBool false));
        [|done|apply read_flag_created|done|done].
      intros k o'. simpl.
      destruct (decide (cls = k)) as [<-|Hne].
      * rewrite lookup_insert_eq. intros [= <-]. right. split.
        -- apply read_flag_completed. unfold created. simpl.
           rewrite lookup_last. by eexists.
        -- apply read_data_completed. unfold created. simpl.
           rewrite lookup_last. by eexists.
      * rewrite lookup_insert_ne by done. intros Hk.
        pose proof (store_ok_lt _ _ _ Hok Hk) as Hlt.
        rewrite !(read_attr_frame s (init_completed source_logic _ _)).
        -- by apply (Hfl k).
        -- rewrite completed_frame by lia. by apply created_frame.
        -- rewrite completed_frame by lia. by apply created_frame.
    + rewrite init_rejects_args by done. intros k o'. simpl.
      destruct (decide (cls = k)) as [<-|Hne].
      * rewrite lookup_insert_eq. intros [= <-]. left.
        split; [apply read_flag_created|apply read_data_created].
      * rewrite lookup_insert_ne by done. intros Hk.
        pose proof (store_ok_lt _ _ _ Hok Hk) as Hlt.
        rewrite !(read_attr_frame s (created cls s)) by (by apply created_frame).
        by apply (Hfl k).
Qed.

Lemma after_calls_flag_ok cs : flag_ok (SingletonPy.after_calls cs).
Proof.
  assert (Hboth : store_ok (SingletonPy.after_calls cs)
                  ∧ flag_ok (SingletonPy.after_calls cs)); [|by destruct Hboth].
  apply (run_calls_invariant _ (λ s, store_ok s ∧ flag_ok s)).
  - intros c a s [Hok Hfl]. split.
    + by apply call_store_ok.
    + by apply call_flag_ok.
  - split; [apply store_ok_initial|]. intros k o. simpl.
    by rewrite lookup_empty.
Qed.

(** The objects made are the objects stored. *)
Lemma call_heap_size logic cls a s :
  length (heap s) = size (store s) →
  length (heap (final_state (type__call__ logic cls a s)))
  = size (store (final_state (type__call__ logic cls a s))).
Proof.
  intros Hsz.
  destruct (call_final logic cls a s)
    as (s0 & o & Hs0 & -> & (f & _ & ->) & _).
  rewrite length_alter. destruct Hs0 as [->|[Hnone ->]]; [done|].
  unfold created. simpl. rewrite length_app. simpl.
  rewrite map_size_insert_None by (by apply instance_None_own). lia.
Qed.
End SingletonMore.

(** ** [singleton_meta.py] *)

Section MetaMore.
Import SingletonMetaPy Invariants.
Context {K : Type} `{Countable K}.
Variable __name__ : K → string.
Variable __init__ : K → call_args → body.
Implicit Types (s : state K) (o : loc) (cls k : K) (a : call_args).

Local Abbreviation meta_call := (SingletonMeta__call__ __name__ __init__).
Local Abbreviation constructed := (constructed __name__ __init__).
Local Abbreviation recorded := (recorded __name__ __init__).

Lemma constructed_frame cls a s o' :
  o' < length (heap s) → heap (constructed cls a s) !! o' = heap s !! o'.
Proof.
  intros Hlt. unfold SingletonMetaPy.constructed, after_effects. simpl.
  rewrite list_lookup_alter_ne by lia. by rewrite lookup_app_l.
Qed.

Lemma length_heap_constructed cls a s :
  length (heap (constructed cls a s)) = S (length (heap s)).
Proof.
  unfold SingletonMetaPy.constructed, after_effects. simpl.
  rewrite length_alter, length_app. simpl. lia.
Qed.

(** A call leaves every object there was as it was. *)
Lemma meta_call_frame cls a s o' :
  o' < length (heap s) →
  heap (final_state (meta_call cls a s)) !! o' = heap s !! o'.
Proof.
  intros Hlt. destruct (store s !! cls) as [o|] eqn:Ho.
  - by rewrite (meta_call_reuse _ _ _ _ _ o Ho).
  - destruct (raises (__init__ cls a)) as [e|] eqn:Hi.
    + rewrite (meta_call_fail _ _ _ _ _ e) by done. by apply constructed_frame.
    + rewrite meta_call_create by done. by apply constructed_frame.
Qed.

(** One call: the objects made, the entries stored and the failure. *)
Lemma meta_call_count cls a s :
  length (heap (final_state (meta_call cls a s))) + size (store s)
  = length (heap s) + size (store (final_state (meta_call cls a s)))
    + match meta_call cls a s with Raised _ _ => 1 | Returned _ _ => 0 end.
Proof.
  destruct (store s !! cls) as [o|] eqn:Ho.
  - rewrite (meta_call_reuse _ _ _ _ _ o Ho). simpl. lia.
  - destruct (raises (__init__ cls a)) as [e|] eqn:Hi.
    + rewrite (meta_call_fail _ _ _ _ _ e) by done. cbn [final_state].
      rewrite length_heap_constructed.
      replace (store (constructed cls a s)) with (store s) by done. lia.
    + rewrite meta_call_create by done. cbn [final_state].
      replace (heap (recorded cls a s)) with (heap (constructed cls a s))
        by done.
      replace (store (recorded cls a s))
        with (<[cls := length (heap s)]> (store s)) by done.
      rewrite length_heap_constructed, map_size_insert_None by done. lia.
Qed.

Lemma meta_run_count (calls : list (K * call_args)) s :
  length (heap (run_calls meta_call calls s).2) + size (store s)
  = length (heap s) + size (store (run_calls meta_call calls s).2)
    + failures (run_calls meta_call calls s).1.
Proof.
  revert s. induction calls as [|[c a] calls IH]; intros s; simpl; [lia|].
  pose proof (meta_call_count c a s) as Hc.
  destruct (meta_call c a s) as [r s'|e s']; simpl in Hc;
    specialize (IH s');
    destruct (run_calls meta_call calls s') as [rs s'']; simpl in *; lia.
Qed.

(** Failing calls of a class with no entry: each leaves the store as it
    is and one more object. *)
Lemma meta_run_failing cls (fails : list call_args) s :
  store s !! cls = None →
  Forall (λ a, is_Some (raises (__init__ cls a))) fails →
  ∃ rs s1,
    run_calls meta_call (map (pair cls) fails) s = (rs, s1)
    ∧ Forall2 (λ a r, ∃ e, raises (__init__ cls a) = Some e ∧ r = inl e)
        fails rs
    ∧ store s1 = store s
    ∧ length (heap s1) = length (heap s) + length fails.
Proof.
  intros Ho Hf. revert s Ho.
  induction Hf as [|a fails [e He] Hf IH]; intros s Ho; simpl.
  - exists [], s. split; [done|]. split; [constructor|]. split; [done|lia].
  - rewrite (meta_call_fail _ _ _ _ _ e) by done.
    destruct (IH (constructed cls a s)) as (rs & s1 & Hrun & Hrs & Hst & Hlen);
      [done|].
    rewrite Hrun. exists (inl e :: rs), s1.
    split; [done|]. split; [constructor; eauto|]. split; [done|].
    rewrite Hlen, length_heap_constructed. lia.
Qed.
End MetaMore.

(** ** The properties *)

Import Invariants.

(** X1. The script of [singleton.py] never reports two instances. Run
    after any calls whatever, it ends normally: the second [Singleton()]
    returns the object of the first and changes nothing, and the output
    is what the first [Singleton()] printed, then the two lines of the
    business logic, then the report that s1 and s2 are the same
    instance. *)
Theorem X1_script_reports_same_instance :
  ∀ cs, ∃ o s1,
    SingletonPy.call Singleton no_args (SingletonPy.after_calls cs)
    = Returned (Some o) s1
    ∧ SingletonPy.call Singleton no_args s1 = Returned (Some o) s1
    ∧ main (SingletonPy.after_calls cs)
      = Returned tt
          (State (store s1) (heap s1)
             (trace s1 ++ [Printed "Doing something important...";
                           Printed "Doing something important...";
                           Printed "Are s1 and s2 the same instance? True"])).
Proof.
  intros cs.
  destruct (call_no_args_returns Singleton (SingletonPy.after_calls cs))
    as (o & s1 & H1); [apply after_calls_store_ok|].
  pose proof (call_no_args_settled _ _ _ _ (after_calls_store_ok cs) H1) as H2.
  exists o, s1. split; [done|]. split; [done|].
  unfold main, bind. rewrite H1, H2.
  unfold some_business_logic, print, log. simpl.
  rewrite bool_decide_eq_true_2 by done. simpl.
  by rewrite <- !app_assoc.
Qed.



(** X3. In [singleton.py] the flag [_initialized] alone guards the
    initialization. For a recorded, initialized instance of [cls]:
    assigning any other attribute of it, the data field included, is seen
    by later calls, which return the object and change nothing; assigning
    the flag a false value makes the next call run the initialization
    again, which prints the notice, assigns the data field anew and sets
    the flag. *)
Theorem X3_flag_guards_initialization :
  ∀ cls s o n v,
    _instance (store s) cls = Some o →
    class_of s o = Some cls →
    read_attr s o "_initialized" = Some (VBool true) →
    (n ≠ "_initialized" →
     SingletonPy.call cls no_args (assigned o n v s)
     = Returned (Some o) (assigned o n v s)
     ∧ read_attr (assigned o n v s) o n = Some v)
    ∧ (truthy v = false →
       ∃ s2,
         SingletonPy.call cls no_args (assigned o "_initialized" v s)
         = Returned (Some o) s2
         ∧ read_attr s2 o "_initialized" = Some (VBool true)
         ∧ read_attr s2 o "some_data" = Some (VStr "Important data")
         ∧ trace s2
           = trace s ++ [AttrSet o "_initialized" v;
                         Printed initializing_msg;
                         AttrSet o "some_data" (VStr "Important data");
                         AttrSet o "_initialized" (VBool true)]).
Proof.
  intros cls s o n v Ho Hc Hf.
  assert (Hob : ∃ ob, heap s !! o = Some ob ∧ ob_class ob = cls).
  { unfold class_of in Hc. destruct (heap s !! o) as [ob|]; [|done].
    exists ob. split; [done|]. by injection Hc. }
  destruct Hob as (ob & Hob & Hcl).
  assert (Hc' : ∀ m w, class_of (assigned o m w s) o = Some cls).
  { intros m w. unfold class_of, assigned. simpl.
    rewrite list_lookup_alter_eq, Hob. simpl. by rewrite Hcl. }
  assert (Hr : ∀ m w, read_attr (assigned o m w s) o m = Some w).
  { intros m w. unfold read_attr, assigned. simpl.
    rewrite list_lookup_alter_eq, Hob. simpl. by rewrite lookup_insert_eq. }
  split.
  - intros Hn. split; [|apply Hr].
    apply call_again; [done|apply Hc'| |done].
    unfold read_attr, assigned. simpl.
    rewrite list_lookup_alter_eq, Hob. simpl.
    rewrite lookup_insert_ne by done.
    unfold read_attr in Hf. by rewrite Hob in Hf.
  - intros Hv. eexists. split; [|split; [|split]].
    + unfold SingletonPy.call.
      by rewrite (call_uninitialized _ _ _ o v).
    + apply read_flag_completed. unfold assigned. simpl.
      rewrite list_lookup_alter_eq, Hob. by eexists.
    + apply read_data_completed. unfold assigned. simpl.
      rewrite list_lookup_alter_eq, Hob. by eexists.
    + simpl. by rewrite <- !app_assoc.
Qed.

(** After [Singleton()], the data field is replaced, then the flag is
    cleared with [None]. *)
Lemma X3_witness :
  SingletonPy.call Singleton no_args
    (assigned 0 "some_data" (VStr "changed")
       (SingletonPy.after_calls [(Singleton, no_args)]))
  = Returned (Some 0)
      (assigned 0 "some_data" (VStr "changed")
         (SingletonPy.after_calls [(Singleton, no_args)]))
  ∧ ∃ s2,
      SingletonPy.call Singleton no_args
        (assigned 0 "_initialized" VNone
           (assigned 0 "some_data" (VStr "changed")
              (SingletonPy.after_calls [(Singleton, no_args)])))
      = Returned (Some 0) s2
      ∧ read_attr s2 0 "some_data" = Some (VStr "Important data").
Proof.
  split.
  - apply (X3_flag_guards_initialization Singleton
             (SingletonPy.after_calls [(Singleton, no_args)]) 0
             "some_data" (VStr "changed")); vm_compute; try reflexivity.
    discriminate.
  - destruct (X3_flag_guards_initialization Singleton
                (assigned 0 "some_data" (VStr "changed")
                   (SingletonPy.after_calls [(Singleton, no_args)])) 0
                "_initialized" VNone) as (_ & Hreset);
      [vm_compute; reflexivity..|].
    destruct (Hreset eq_refl) as (s2 & Hcall & _ & Hdata & _).
    by exists s2.
Defined.

(** X4. In [singleton.py], after any calls whatever, with any arguments,
    every object bound in a class namespace is an object of that class
    and is in one of two conditions: as [__new__] made it, with the flag
    [_initialized] false and no data field, or as [__init__] completed
    it, with the flag true and the data field assigned. The flag is never
    true on an object without its data. *)
Theorem X4_flag_tells_initialization :
  ∀ cs k o,
    store (SingletonPy.after_calls cs) !! k = Some o →
    class_of (SingletonPy.after_calls cs) o = Some k
    ∧ ((read_attr (SingletonPy.after_calls cs) o "_initialized"
        = Some (VBool false)
        ∧ read_attr (SingletonPy.after_calls cs) o "some_data" = None)
       ∨ (read_attr (SingletonPy.after_calls cs) o "_initialized"
          = Some (VBool true)
          ∧ read_attr (SingletonPy.after_calls cs) o "some_data"
            = Some (VStr "Important data"))).
Proof.
  intros cs k o Hk. split.
  - by apply (store_ok_class _ _ _ (after_calls_store_ok cs)).
  - by apply (after_calls_flag_ok cs k).
Qed.

(** After [Singleton(1)], [Sub()] and [Singleton()]. *)
Lemma X4_witness :
  class_of (SingletonPy.after_calls
              [(Singleton, CallArgs [VInt 1] []);
               (Derived "Sub" Singleton, no_args); (Singleton, no_args)]) 0
  = Some Singleton
  ∧ ((read_attr (SingletonPy.after_calls
                   [(Singleton, CallArgs [VInt 1] []);
                    (Derived "Sub" Singleton, no_args); (Singleton, no_args)])
        0 "_initialized" = Some (VBool false)
      ∧ read_attr (SingletonPy.after_calls
                     [(Singleton, CallArgs [VInt 1] []);
                      (Derived "Sub" Singleton, no_args); (Singleton, no_args)])
          0 "some_data" = None)
     ∨ (read_attr (SingletonPy.after_calls
                     [(Singleton, CallArgs [VInt 1] []);
                      (Derived "Sub" Singleton, no_args); (Singleton, no_args)])
          0 "_initialized" = Some (VBool true)
        ∧ read_attr (SingletonPy.after_calls
                       [(Singleton, CallArgs [VInt 1] []);
                        (Derived "Sub" Singleton, no_args);
                        (Singleton, no_args)])
            0 "some_data" = Some (VStr "Important data"))).
Proof.
  apply (X4_flag_tells_initialization
           [(Singleton, CallArgs [VInt 1] []);
            (Derived "Sub" Singleton, no_args); (Singleton, no_args)]
           Singleton 0).
  vm_compute. reflexivity.
Defined.

(** X5. In [singleton.py] the order of the first calls decides what a
    derived class gets. When a class derived from [b] is called before
    any instance it could read exists, it gets an object of its own, bound
    in its own namespace; [b], called next, does not see that binding and
    gets another object; and from then on each of the two classes keeps
    its own object. *)
Theorem X5_derived_class_called_first :
  ∀ n b s,
    _instance (store s) (Derived n b) = None →
    (run_calls SingletonPy.call
       [(Derived n b, no_args); (b, no_args);
        (Derived n b, no_args); (b, no_args)] s).1
    = [inr (Some (length (heap s))); inr (Some (S (length (heap s))));
       inr (Some (length (heap s))); inr (Some (S (length (heap s))))].
Proof.
  intros n b s Hd.
  assert (Hb : _instance (store s) b = None).
  { simpl in Hd. by destruct (store s !! Derived n b). }
  set (o := length (heap s)).
  set (s1 := init_completed source_logic o (created (Derived n b) s)).
  destruct (completed_ready source_logic (Derived n b) s) as (Hi1 & Hc1 & Hf1).
  fold o in Hi1, Hc1, Hf1. fold s1 in Hi1, Hc1, Hf1.
  assert (Hlen1 : length (heap s1) = S o) by apply length_heap_completed.
  assert (Hb1 : _instance (store s1) b = None).
  { unfold s1. simpl. rewrite instance_insert_other; [done|].
    apply derived_not_in_mro. }
  set (s2 := init_completed source_logic (length (heap s1)) (created b s1)).
  destruct (completed_ready source_logic b s1) as (Hi2 & Hc2 & Hf2).
  fold s2 in Hi2, Hc2, Hf2.
  assert (Hlt : o < length (heap s1)) by lia.
  destruct (completed_other source_logic b s1 o "_initialized" Hlt)
    as [Hc3 Hf3]. fold s2 in Hc3, Hf3.
  assert (Hi3 : _instance (store s2) (Derived n b) = Some o).
  { apply instance_own. unfold s2. simpl.
    rewrite lookup_insert_ne by apply derived_ne.
    apply lookup_insert_eq. }
  simpl.
  rewrite (call_first _ _ Hd). fold o. fold s1.
  rewrite (call_first _ _ Hb1). fold s2.
  unfold SingletonPy.call.
  rewrite (call_again _ _ _ _ o Hi3); [|congruence|congruence|done].
  rewrite (call_again _ _ _ _ (length (heap s1)) Hi2); [|done|done|done].
  cbn [fst]. by rewrite Hlen1.
Qed.

(** [Sub()], [Singleton()], [Sub()], [Singleton()] in a fresh process. *)
Lemma X5_witness :
  (run_calls SingletonPy.call
     [(Derived "Sub" Singleton, no_args); (Singleton, no_args);
      (Derived "Sub" Singleton, no_args); (Singleton, no_args)] initial).1
  = [inr (Some 0); inr (Some 1); inr (Some 0); inr (Some 1)].
Proof.
  apply (X5_derived_class_called_first "Sub" Singleton initial).
  reflexivity.
Defined.


(** X7. A call touches no object but the instance of the class called.
    In [singleton.py] a call of [cls], returning or raising, leaves every
    existing object other than the one [cls._instance] holds exactly as
    it was; in [singleton_meta.py] a call leaves every existing object as
    it was, the recorded instance of the class included. *)
Theorem X7_calls_leave_other_objects :
  (∀ logic cls a s o',
     o' < length (heap s) →
     _instance (store s) cls ≠ Some o' →
     heap (final_state (type__call__ logic cls a s)) !! o' = heap s !! o')
  ∧ (∀ (K : Type) `(Countable K) (name : K → string)
       (init : K → call_args → body) cls a (s : state K) o',
       o' < length (heap s) →
       heap (final_state (SingletonMeta__call__ name init cls a s)) !! o'
       = heap s !! o').
Proof.
  split.
  - intros logic cls a s o' Hlt Hne.
    destruct (_instance (store s) cls) as [o|] eqn:Ho.
    + rewrite (call_reuse _ _ _ _ o Ho).
      destruct (class_of s o) as [c|]; [|done].
      destruct (issubclass c cls); [|done].
      pose proof (init_frame logic o a s o') as Hfr.
      destruct (Singleton__init__ logic o a s); apply Hfr; congruence.
    + rewrite (call_create _ _ _ _ Ho).
      pose proof (init_frame logic (length (heap s)) a (created cls s) o')
        as Hfr.
      rewrite <- (created_frame cls s o' Hlt).
      destruct (Singleton__init__ logic _ a (created cls s)); apply Hfr; lia.
  - intros K ? ? name init cls a s o'. apply meta_call_frame.
Qed.

(** The instance of [Singleton] is left alone by a first call [Sub()]. *)
Lemma X7_witness :
  heap (final_state
          (type__call__ source_logic (Derived "Sub" Singleton) no_args
             (SingletonPy.after_calls
                [(Derived "A" Singleton, no_args)]))) !! 0
  = heap (SingletonPy.after_calls [(Derived "A" Singleton, no_args)]) !! 0.
Proof.
  destruct X7_calls_leave_other_objects as (Hsingle & _).
  apply (Hsingle source_logic (Derived "Sub" Singleton) no_args
           (SingletonPy.after_calls [(Derived "A" Singleton, no_args)]) 0).
  - vm_compute. lia.
  - vm_compute. discriminate.
Defined.

(** X8. What a call returns is an object of the right class. In
    [singleton_meta.py], after any calls whatever, the object a call of
    [cls] returns is an object of [cls] itself. In [singleton.py] it is an
    object of [cls] or of a class [cls] derives from. *)
Theorem X8_class_of_returned_object :
  (∀ cs cls a o s',
     SingletonPy.call cls a (SingletonPy.after_calls cs) = Returned (Some o) s' →
     ∃ c, class_of s' o = Some c ∧ c ∈ mro cls)
  ∧ (∀ (K : Type) `(Countable K) (name : K → string)
       (init : K → call_args → body) calls cls a o s',
       SingletonMeta__call__ name init cls a
         (run_calls (SingletonMeta__call__ name init) calls initial).2
       = Returned o s' →
       class_of s' o = Some cls).
Proof.
  split.
  - intros cs cls a o s' Hcall.
    pose proof (call_store_ok source_logic cls a _ (after_calls_store_ok cs))
      as Hok.
    unfold SingletonPy.call in Hcall. rewrite Hcall in Hok. simpl in Hok.
    destruct (call_returned _ _ _ _ _ _ Hcall) as (o0 & [= <-] & Hi).
    destruct (instance_origin _ _ _ Hi) as (c & Hc & Hst).
    exists c. split; [|done]. by apply store_ok_class.
  - intros K ? ? name init calls cls a o s' Hcall.
    pose proof (meta_call_classes_ok name init cls a _
                  (meta_run_classes_ok name init calls)) as Hok.
    rewrite Hcall in Hok. simpl in Hok.
    apply Hok. by eapply meta_call_returned.
Qed.

(** [Sub()] after [Singleton()] returns an object of class [Singleton]. *)
Lemma X8_witness :
  ∃ c, class_of (SingletonPy.after_calls [(Singleton, no_args)]) 0 = Some c
       ∧ c ∈ mro (Derived "Sub" Singleton).
Proof.
  destruct X8_class_of_returned_object as (Hsingle & _).
  apply (Hsingle [(Singleton, no_args)] (Derived "Sub" Singleton) no_args 0).
  vm_compute. reflexivity.
Defined.



(** X10. [do_something] prints the data of the object and changes
    nothing else. After any calls of [MySingleton] whatever, with any
    arguments, the recorded instance has the data [__init__] gave it, so
    that [do_something] on it ends normally and prints that data. On an
    object without [data] it raises [AttributeError] and prints nothing.
    On an object whose [data] is a string it prints that string, and
    likewise for [None], a boolean, or an integer that [str] converts,
    printed as [str] gives it. *)
Theorem X10_do_something_prints_data :
  (∀ cs o,
     store (SingletonMetaPy.after_calls cs) !! MySingleton = Some o →
     do_something o (SingletonMetaPy.after_calls cs)
     = Returned tt
         (State (store (SingletonMetaPy.after_calls cs))
                (heap (SingletonMetaPy.after_calls cs))
                (trace (SingletonMetaPy.after_calls cs)
                 ++ [Printed "Doing something with Some important shared data"])))
  ∧ (∀ s o,
       read_attr s o "data" = None →
       do_something o s = Raised (AttributeError "data") s)
  ∧ (∀ s o d,
       read_attr s o "data" = Some (VStr d) →
       do_something o s
       = Returned tt
           (State (store s) (heap s)
                  (trace s ++ [Printed ("Doing something with " +:+ d)])))
  ∧ (∀ s o v text,
       read_attr s o "data" = Some v →
       is_reference v = false →
       str_of_value v = inr text →
       do_something o s
       = Returned tt
           (State (store s) (heap s)
                  (trace s ++ [Printed ("Doing something with " +:+ text)]))).
Proof.
  assert (Hsome : ∀ s o v text,
       read_attr s o "data" = Some v →
       str_of_value v = inr text →
       do_something o s
       = Returned tt
           (State (store s) (heap s)
                  (trace s ++ [Printed ("Doing something with " +:+ text)]))).
  { intros s o v text Hv Hs. unfold do_something, bind, getattr.
    by rewrite Hv, Hs. }
  split; [|split; [|split]].
  - intros cs o Ho.
    by rewrite (Hsome _ _ _ _ (data_ok_after_calls cs o Ho) eq_refl).
  - intros s o Hv. unfold do_something, bind, getattr. by rewrite Hv.
  - intros s o d Hv. by apply (Hsome _ _ (VStr d)).
  - intros s o v text Hv _ Hs. by apply (Hsome _ _ v).
Qed.

(** After a failed and a good call of [MySingleton]. *)
Lemma X10_witness :
  do_something 1
    (SingletonMetaPy.after_calls
       [(MySingleton, CallArgs [VInt 1] []); (MySingleton, no_args)])
  = Returned tt
      (State
         (store (SingletonMetaPy.after_calls
                   [(MySingleton, CallArgs [VInt 1] []); (MySingleton, no_args)]))
         (heap (SingletonMetaPy.after_calls
                  [(MySingleton, CallArgs [VInt 1] []); (MySingleton, no_args)]))
         (trace (SingletonMetaPy.after_calls
                   [(MySingleton, CallArgs [VInt 1] []); (MySingleton, no_args)])
          ++ [Printed "Doing something with Some important shared data"])).
Proof.
  destruct X10_do_something_prints_data as (Hrec & _).
  apply (Hrec [(MySingleton, CallArgs [VInt 1] []); (MySingleton, no_args)] 1).
  vm_compute. reflexivity.
Defined.



(** X12. What [test_singleton] prints. Run after any calls of
    [MySingleton] whatever, it ends normally, and its output is the
    heading, what the first [MySingleton()] printed, the reuse notice of
    the second, the same data line twice, the same id twice, and the
    line that the test passed. *)
Theorem X12_test_singleton_output :
  ∀ cs, ∃ o s1,
    SingletonMetaPy.call MySingleton no_args
      (State (store (SingletonMetaPy.after_calls cs))
             (heap (SingletonMetaPy.after_calls cs))
             (trace (SingletonMetaPy.after_calls cs)
              ++ [Printed (String "010"%char "--- Testing Singleton ---")]))
    = Returned o s1
    ∧ test_singleton (SingletonMetaPy.after_calls cs)
      = Returned tt
          (State (store s1) (heap s1)
             (trace s1
              ++ [Printed "[SingletonMeta] Reusing existing instance of MySingleton";
                  Printed "Doing something with Some important shared data";
                  Printed "Doing something with Some important shared data";
                  Printed ("s1 id: " ++ pretty o);
                  Printed ("s2 id: " ++ pretty o);
                  Printed "✅ Singleton test passed: s1 and s2 are the same instance."])).
Proof.
  intros cs. unfold test_singleton, bind. unfold print at 1. unfold log.
  set (s0 := State _ _ _).
  destruct (my_call_no_args_data s0) as (o & s1 & H1 & Hst & Hd).
  { intros o Ho. apply (data_ok_after_calls cs o Ho). }
  exists o, s1. split; [done|].
  rewrite H1, (my_call_reuse _ _ o Hst).
  unfold do_something, bind, getattr.
  replace (read_attr (reused MySingleton__name__ MySingleton s1) o "data")
    with (read_attr s1 o "data") by done.
  rewrite Hd. simpl.
  match goal with
  | |- context [read_attr ?st o "data"] =>
      replace (read_attr st o "data") with (read_attr s1 o "data") by done
  end.
  rewrite Hd. simpl. rewrite bool_decide_eq_true_2 by done. simpl.
  unfold print, log. simpl. rewrite <- !app_assoc. reflexivity.
Qed.
